(** * MindShift: the quiz pipeline of [MindShift.py]

    A shallow embedding of the Streamlit application in [src/MindShift.py]:
    the text normaliser [clean_text], the scraper [scrape_course], the two
    quiz generators [fetch_questions] and [generate_post_learning_quiz], and
    the script [main] that Streamlit re-runs on every interaction.

    Python values that come back from [json.loads] are kept untyped, as the
    code has them; exceptions are explicit results; [st.session_state] is a
    record of optional fields (a missing key is [None]); the libraries the
    script calls (NLTK, requests, BeautifulSoup, OpenAI, json, the widgets)
    are the fields of a class [Env] and of a per-run record [ui].  Lines
    12-19, which hand the API key to the client and fetch the NLTK data,
    configure those libraries and have no counterpart here. *)

From Stdlib Require Import ZArith QArith Ascii String List Bool Lia.
From stdpp Require Import base option list gmap strings.
Import ListNotations.

#[local] Open Scope string_scope.
#[local] Open Scope Z_scope.

(** ** Python values and exceptions *)

(** The values [json.loads] produces.  A [dict] keeps its insertion order,
    which [options.values()] and iteration observe; [json.loads] leaves no
    duplicate key.  A float is given by the rational it denotes. *)
#[warnings="-register-all"]
Inductive pyval : Type :=
| VNone
| VBool (b : bool)
| VInt (n : Z)
| VFloat (q : Q)
| VStr (s : string)
| VList (l : list pyval)
| VDict (d : list (string * pyval)).

Inductive exn : Type :=
| KeyError (key : pyval)
| TypeError (msg : string)
| IndexError (msg : string)
| AttributeError (msg : string)
| JSONDecodeError (msg : string)
| StreamlitAPIException (msg : string)
| OtherError (msg : string).

(** The outcome of evaluating a Python expression. *)
Inductive res (A : Type) : Type :=
| Ok (a : A)
| Raise (e : exn).
Arguments Ok {A} a.
Arguments Raise {A} e.

#[global] Instance res_ret : MRet res := fun A a => Ok a.
#[global] Instance res_bind : MBind res := fun A B f m =>
  match m with
  | Ok a => f a
  | Raise e => Raise e
  end.

Fixpoint dict_get {A : Type} (d : list (string * A)) (k : string) : option A :=
  match d with
  | [] => None
  | (k', v) :: d' => if String.eqb k k' then Some v else dict_get d' k
  end.

Definition num_of (x : pyval) : option Q :=
  match x with
  | VBool b => Some (if b then 1%Q else 0%Q)
  | VInt n => Some (inject_Z n)
  | VFloat q => Some q
  | _ => None
  end.

(** Python's [==] on these values: numbers (and booleans, which are
    integers) compare by value, containers structurally, dicts regardless
    of order, and values of unrelated types are unequal. *)
Fixpoint py_eq (x y : pyval) {struct x} : bool :=
  match x, y with
  | VNone, VNone => true
  | VStr s, VStr t => String.eqb s t
  | VList l, VList m =>
      (fix go (l m : list pyval) {struct l} : bool :=
         match l, m with
         | [], [] => true
         | a :: l', b :: m' => py_eq a b && go l' m'
         | _, _ => false
         end) l m
  | VDict d, VDict e =>
      Nat.eqb (length d) (length e) &&
      (fix all (d : list (string * pyval)) {struct d} : bool :=
         match d with
         | [] => true
         | (k, v) :: d' =>
             match dict_get e k with
             | Some w => py_eq v w
             | None => false
             end && all d'
         end) d
  | _, _ =>
      match num_of x, num_of y with
      | Some p, Some q => Qeq_bool p q
      | _, _ => false
      end
  end.

Definition isinstance_dict (x : pyval) : bool :=
  match x with VDict _ => true | _ => false end.
Definition isinstance_str (x : pyval) : bool :=
  match x with VStr _ => true | _ => false end.
Definition isinstance_bool (x : pyval) : bool :=
  match x with VBool _ => true | _ => false end.

(** Lists and dicts cannot be hashed, so they cannot be looked up in a
    dict. *)
Definition hashable (x : pyval) : bool :=
  match x with VList _ | VDict _ => false | _ => true end.

Fixpoint is_prefix (p s : string) : bool :=
  match p, s with
  | EmptyString, _ => true
  | String a p', String b s' => Ascii.eqb a b && is_prefix p' s'
  | String _ _, EmptyString => false
  end.

Fixpoint is_substring (p s : string) : bool :=
  is_prefix p s ||
  match s with
  | EmptyString => false
  | String _ s' => is_substring p s'
  end.

(** [x in c]. *)
Definition py_in (x c : pyval) : res bool :=
  match c with
  | VDict d =>
      if hashable x then
        Ok (match x with
            | VStr k => match dict_get d k with Some _ => true | None => false end
            | _ => false
            end)
      else Raise (TypeError "unhashable type")
  | VList l => Ok (existsb (py_eq x) l)
  | VStr s =>
      match x with
      | VStr p => Ok (is_substring p s)
      | _ => Raise (TypeError "'in <string>' requires string as left operand")
      end
  | _ => Raise (TypeError "argument is not iterable")
  end.

Definition index_of (n : Z) (len : nat) : option nat :=
  let i := if n <? 0 then n + Z.of_nat len else n in
  if (0 <=? i) && (i <? Z.of_nat len) then Some (Z.to_nat i) else None.

Definition chars (s : string) : list pyval :=
  map (fun c => VStr (String c EmptyString)) (list_ascii_of_string s).

Definition int_index (k : pyval) : option Z :=
  match k with
  | VInt n => Some n
  | VBool b => Some (if b then 1 else 0)
  | _ => None
  end.

(** [c[k]]. *)
Definition py_getitem (c k : pyval) : res pyval :=
  match c with
  | VDict d =>
      if hashable k then
        match k with
        | VStr s => match dict_get d s with Some v => Ok v | None => Raise (KeyError k) end
        | _ => Raise (KeyError k)
        end
      else Raise (TypeError "unhashable type")
  | VList l =>
      match int_index k with
      | Some n =>
          match index_of n (length l) with
          | Some i => match nth_error l i with Some v => Ok v | None => Raise (IndexError "list index out of range") end
          | None => Raise (IndexError "list index out of range")
          end
      | None => Raise (TypeError "list indices must be integers or slices")
      end
  | VStr s =>
      match int_index k with
      | Some n =>
          match index_of n (String.length s) with
          | Some i => match nth_error (chars s) i with Some v => Ok v | None => Raise (IndexError "string index out of range") end
          | None => Raise (IndexError "string index out of range")
          end
      | None => Raise (TypeError "string indices must be integers")
      end
  | _ => Raise (TypeError "object is not subscriptable")
  end.

(** What a [for] loop or a comprehension iterates over. *)
Definition py_iter (x : pyval) : res (list pyval) :=
  match x with
  | VList l => Ok l
  | VDict d => Ok (map (fun kv => VStr (fst kv)) d)
  | VStr s => Ok (chars s)
  | _ => Raise (TypeError "object is not iterable")
  end.

(** [list(x.values())]. *)
Definition py_values (x : pyval) : res (list pyval) :=
  match x with
  | VDict d => Ok (map snd d)
  | _ => Raise (AttributeError "object has no attribute 'values'")
  end.

(** [a and b] on conditions that may raise: [b] is not evaluated, and so
    cannot raise, when [a] is false. *)
Definition and_then (a b : res bool) : res bool :=
  match a with
  | Ok true => b
  | Ok false => Ok false
  | Raise e => Raise e
  end.

(** [a or b]. *)
Definition or_else (a b : res bool) : res bool :=
  match a with
  | Ok true => Ok true
  | Ok false => b
  | Raise e => Raise e
  end.

#[local] Infix "<&&>" := and_then (at level 41, right associativity).
#[local] Infix "<||>" := or_else (at level 51, right associativity).

(** [[x for x in xs if cond(x)]]: the first condition that raises ends the
    whole comprehension. *)
Fixpoint comprehension (cond : pyval -> res bool) (xs : list pyval) : res (list pyval) :=
  match xs with
  | [] => Ok []
  | x :: xs' =>
      b ← cond x;
      rest ← comprehension cond xs';
      mret (if b : bool then x :: rest else rest)
  end.

(** ** Strings *)

(** A Python [str] is modelled by a string of code points below 256; the
    classifications are Python's on that range. *)
Module Text.

Definition between (lo n hi : N) : bool := ((lo <=? n) && (n <=? hi))%N.

Definition lower_char (c : ascii) : ascii :=
  let n := N_of_ascii c in
  if between 65 n 90 || (between 192 n 222 && negb (n =? 215)%N)
  then ascii_of_N (n + 32) else c.

Definition isalpha_char (c : ascii) : bool :=
  let n := N_of_ascii c in
  between 65 n 90 || between 97 n 122 ||
  (n =? 170)%N || (n =? 181)%N || (n =? 186)%N ||
  between 192 n 214 || between 216 n 246 || between 248 n 255.

Definition isspace_char (c : ascii) : bool :=
  let n := N_of_ascii c in
  between 9 n 13 || between 28 n 32 || (n =? 133)%N || (n =? 160)%N.

Fixpoint lower (s : string) : string :=
  match s with
  | EmptyString => EmptyString
  | String c s' => String (lower_char c) (lower s')
  end.

Fixpoint all_alpha (s : string) : bool :=
  match s with
  | EmptyString => true
  | String c s' => isalpha_char c && all_alpha s'
  end.

(** [s.isalpha()]: every character is a letter and there is at least
    one. *)
Definition isalpha (s : string) : bool :=
  match s with
  | EmptyString => false
  | _ => all_alpha s
  end.

Fixpoint lstrip (s : string) : string :=
  match s with
  | EmptyString => EmptyString
  | String c s' => if isspace_char c then lstrip s' else s
  end.

Fixpoint rstrip (s : string) : string :=
  match s with
  | EmptyString => EmptyString
  | String c s' =>
      match rstrip s' with
      | EmptyString => if isspace_char c then EmptyString else String c EmptyString
      | r => String c r
      end
  end.

Definition strip (s : string) : string := rstrip (lstrip s).

(** [sep.join(ws)]. *)
Fixpoint join (sep : string) (ws : list string) : string :=
  match ws with
  | [] => EmptyString
  | [w] => w
  | w :: ws' => w ++ sep ++ join sep ws'
  end.

Definition dq : string := String "034"%char EmptyString.
Definition nl : string := String "010"%char EmptyString.
Definition quoted (s : string) : string := dq ++ s ++ dq.

End Text.

(** ** The libraries the script calls *)

Record response := { status_code : Z; text : string }.

Record chat_request := {
  model : string;
  messages : list (string * string);
  temperature : option Q;
  max_tokens : Z
}.

Record date := { year : Z; month : Z; day : Z }.

(** Everything outside the repository: NLTK's tokenizer and stop-word
    list, [requests.get], BeautifulSoup's parser and queries,
    [openai.ChatCompletion.create] (reduced to the text of its first
    choice), [json.loads], the built-in [str] and the clock. *)
Class Env := {
  word_tokenize : string -> list string;
  stopwords_words : string -> list string;
  requests_get : string -> list (string * string) -> res response;
  tag : Type;
  BeautifulSoup : string -> string -> tag;
  find : tag -> string -> string -> option tag;
  find_all : tag -> string -> list tag;
  tag_text : tag -> string;
  ChatCompletion_create : chat_request -> res string;
  json_loads : string -> res pyval;
  py_str : pyval -> string;
  exn_str : exn -> string;
  date_today : date
}.

(** ** Text normaliser (lines 23-29) *)

Definition stop_words `{Env} : gset string :=
  list_to_set (stopwords_words "english").

(** The condition of the comprehension at line 27. *)
Definition kept `{Env} (word : string) : Prop :=
  (word ∉ stop_words) ∧ (Text.isalpha word = true).

Definition clean_text `{Env} (text : string) : string :=
  let words := word_tokenize (Text.lower text) in
  let filtered_words := filter kept words in
  Text.join " " filtered_words.

(** ** Course scraper (lines 33-56) *)

(** The pair [(data, error)] the function returns, [None] in one of the two
    places.  A BeautifulSoup tag is always true in a condition, so only a
    missing section takes the empty branch. *)
Definition scrape_course `{Env} (url : string) : res (option pyval * option string) :=
  let headers := [("User-Agent", "Mozilla/5.0")] in
  response ← requests_get url headers;
  if negb (status_code response =? 200) then
    mret (None, Some "Failed to fetch content")
  else
    let soup := BeautifulSoup (text response) "html.parser" in
    let learn_section := find soup "section" "css-1t957yb" in
    let what_you_learn :=
      match learn_section with
      | Some section => map (fun item => Text.strip (tag_text item)) (find_all section "li")
      | None => []
      end in
    let skills_section := find soup "div" "css-1m3kxpf" in
    let skills :=
      match skills_section with
      | Some section => map (fun skill => Text.strip (tag_text skill)) (find_all section "span")
      | None => []
      end in
    let cleaned_data :=
      VDict [("What You'll Learn", VList (map (fun item => VStr (clean_text item)) what_you_learn));
             ("Skills You'll Gain", VList (map (fun skill => VStr (clean_text skill)) skills))] in
    mret (Some cleaned_data, None).

(** ** Session state and the run of the script *)

(** One entry of [st.session_state["quizzes"]]. *)
Record score_result := { sr_date : date; sr_score : Z; sr_total : Z }.

(** [st.session_state]: a key that is absent is [None]. *)
Record session := {
  course_topics : option pyval;
  quizzes : option (list score_result);
  current_quiz : option (list pyval);
  selected_answers : option (gmap nat pyval);
  quiz_submitted : option bool;
  last_quiz_score : option Z;
  roadmap : option string;
  post_quiz : option (list pyval);
  post_quiz_answers : option (gmap nat pyval);
  post_quiz_submitted : option bool;
  last_post_quiz_score : option Z
}.

Definition new_session : session :=
  {| course_topics := None; quizzes := None; current_quiz := None;
     selected_answers := None; quiz_submitted := None; last_quiz_score := None;
     roadmap := None; post_quiz := None; post_quiz_answers := None;
     post_quiz_submitted := None; last_post_quiz_score := None |}.

(** What the script shows on the page. *)
Inductive message : Type :=
| StTitle (s : string)
| StSubheader (s : string)
| StMarkdown (s : string)
| StWrite (s : string)
| StJson (v : pyval)
| StError (s : string)
| StWarning (s : string)
| StSuccess (s : string).

(** A run of the script carries the session and the page shown so far.  An
    exception ends the run; what was written to the session before it
    stays. *)
Record run := { state : session; shown : list message }.

Definition app (A : Type) : Type := run -> run * res A.

#[global] Instance app_ret : MRet app := fun A a r => (r, Ok a).
#[global] Instance app_bind : MBind app := fun A B f m r =>
  match m r with
  | (r', Ok a) => f a r'
  | (r', Raise e) => (r', Raise e)
  end.

Definition lift {A : Type} (x : res A) : app A := fun r => (r, x).

Definition show (m : message) : app unit :=
  fun r => ({| state := state r; shown := shown r ++ [m] |}, Ok tt).

Definition get_state : app session := fun r => (r, Ok (state r)).

Definition update (f : session -> session) : app unit :=
  fun r => ({| state := f (state r); shown := shown r |}, Ok tt).

(** [try: body except <class>: handler]: only the exceptions [catches]
    selects are handled, the others pass through. *)
Definition try_except {A : Type} (catches : exn -> bool) (body : app A)
    (handler : exn -> app A) : app A :=
  fun r =>
    match body r with
    | (r', Ok a) => (r', Ok a)
    | (r', Raise e) => if catches e then handler e r' else (r', Raise e)
    end.

Definition is_JSONDecodeError (e : exn) : bool :=
  match e with JSONDecodeError _ => true | _ => false end.

(** [except Exception] handles every exception of this model. *)
Definition is_Exception (e : exn) : bool := true.

Definition when (b : bool) (body : app unit) : app unit :=
  if b then body else mret tt.

(** [for idx, x in enumerate(xs)], from index [idx]. *)
Fixpoint for_enumerate {A : Type} (idx : nat) (xs : list A)
    (body : nat -> A -> app unit) : app unit :=
  match xs with
  | [] => mret tt
  | x :: xs' => body idx x;; for_enumerate (S idx) xs' body
  end.

(** ** Quiz generators (lines 61-150) *)

Definition item (c : pyval) (k : string) : res pyval := py_getitem c (VStr k).
Definition has_key (k : string) (c : pyval) : res bool := py_in (VStr k) c.

(** The condition of the comprehension at lines 84-94. *)
Definition pre_condition (question : pyval) : res bool :=
  Ok (isinstance_dict question)
  <&&> has_key "mcq" question
  <&&> (m ← item question "mcq"; mret (isinstance_str m))
  <&&> has_key "options" question
  <&&> (o ← item question "options"; mret (isinstance_dict o))
  <&&> has_key "correct" question
  <&&> (c ← item question "correct"; o ← item question "options"; py_in c o).

(** The condition of the comprehension at lines 130-143. *)
Definition post_condition (question : pyval) : res bool :=
  ((t ← item question "type"; mret (py_eq t (VStr "mcq")))
   <&&> has_key "options" question
   <&&> (c ← item question "correct"; o ← item question "options"; py_in c o))
  <||>
  ((t ← item question "type"; mret (py_eq t (VStr "true_false")))
   <&&> has_key "correct" question
   <&&> (c ← item question "correct"; mret (isinstance_bool c))).

(** The shapes the data model gives a question: an MCQ has an [options]
    mapping that holds its [correct] key; a true/false question has a
    boolean [correct]. *)
Definition valid_mcq (question : pyval) : Prop :=
  exists options key,
    item question "options" = Ok (VDict options) /\
    item question "correct" = Ok (VStr key) /\
    is_Some (dict_get options key).

Definition valid_true_false (question : pyval) : Prop :=
  exists b, item question "correct" = Ok (VBool b).

Definition pre_prompt (text_content quiz_level : string) : string :=
  let q := Text.quoted in
  let ind := "    " in
  Text.nl
  ++ ind ++ "Generate 7 multiple-choice questions (MCQs) and true/false questions based on this content:" ++ Text.nl
  ++ ind ++ "Level: " ++ quiz_level ++ Text.nl
  ++ ind ++ "Content: " ++ text_content ++ Text.nl
  ++ ind ++ "Format as JSON:" ++ Text.nl
  ++ ind ++ "[" ++ Text.nl
  ++ ind ++ ind ++ "{" ++ q "mcq" ++ ": " ++ q "..." ++ ", " ++ q "options" ++ ": {"
       ++ q "a" ++ ": " ++ q "..." ++ ", " ++ q "b" ++ ": " ++ q "..." ++ ", "
       ++ q "c" ++ ": " ++ q "..." ++ ", " ++ q "d" ++ ": " ++ q "..." ++ "}, "
       ++ q "correct" ++ ": " ++ q "a" ++ "}," ++ Text.nl
  ++ ind ++ ind ++ "..." ++ Text.nl
  ++ ind ++ "]" ++ Text.nl
  ++ ind.

Definition post_prompt (roadmap_content quiz_level : string) : string :=
  let q := Text.quoted in
  let ind := "    " in
  Text.nl
  ++ ind ++ "Based on this roadmap content: " ++ roadmap_content
       ++ ", create a set of 7 post-learning questions with a mix of MCQs and True/False. " ++ Text.nl
  ++ ind ++ "Level: " ++ quiz_level ++ Text.nl
  ++ ind ++ "Format as JSON:" ++ Text.nl
  ++ ind ++ "[" ++ Text.nl
  ++ ind ++ ind ++ "{" ++ q "type" ++ ": " ++ q "mcq" ++ ", " ++ q "question" ++ ": " ++ q "..." ++ ", "
       ++ q "options" ++ ": {"
       ++ q "a" ++ ": " ++ q "..." ++ ", " ++ q "b" ++ ": " ++ q "..." ++ ", "
       ++ q "c" ++ ": " ++ q "..." ++ ", " ++ q "d" ++ ": " ++ q "..." ++ "}, "
       ++ q "correct" ++ ": " ++ q "a" ++ "}," ++ Text.nl
  ++ ind ++ ind ++ "{" ++ q "type" ++ ": " ++ q "true_false" ++ ", " ++ q "question" ++ ": " ++ q "..." ++ ", "
       ++ q "correct" ++ ": true}" ++ Text.nl
  ++ ind ++ "]" ++ Text.nl
  ++ ind.

Definition quiz_request (prompt : string) : chat_request :=
  {| model := "gpt-3.5-turbo"; messages := [("user", prompt)];
     temperature := Some (3 # 10)%Q; max_tokens := 1000 |}.

Definition is_empty {A : Type} (l : list A) : bool :=
  match l with [] => true | _ => false end.

Definition fetch_questions `{Env} (text_content quiz_level : string) : app (list pyval) :=
  let prompt := pre_prompt text_content quiz_level in
  try_except is_Exception
    (response_text ← lift (ChatCompletion_create (quiz_request prompt));
     try_except is_JSONDecodeError
       (questions ← lift (json_loads response_text);
        (* Skip malformed questions *)
        valid_questions ← lift (py_iter questions ≫= comprehension pre_condition);
        when (is_empty valid_questions)
          (show (StWarning "No valid questions were generated. OpenAI may have returned malformed data."));;
        mret valid_questions)
       (fun e =>
          show (StError ("Error parsing JSON from OpenAI: " ++ exn_str e));;
          mret []))
    (fun e =>
       show (StError ("Error generating quiz: " ++ exn_str e));;
       mret []).

Definition generate_post_learning_quiz `{Env} (roadmap_content quiz_level : string)
    : app (list pyval) :=
  let prompt := post_prompt roadmap_content quiz_level in
  try_except is_Exception
    (response_text ← lift (ChatCompletion_create (quiz_request prompt));
     try_except is_JSONDecodeError
       (questions ← lift (json_loads response_text);
        (* Filter out malformed questions *)
        valid_questions ← lift (py_iter questions ≫= comprehension post_condition);
        mret valid_questions)
       (fun e =>
          show (StError ("Error parsing JSON from OpenAI: " ++ exn_str e));;
          mret []))
    (fun e =>
       show (StError ("Error generating post-learning quiz: " ++ exn_str e));;
       mret []).

(** ** Floating point, as far as line 285-293 needs it *)

(** Python multiplies an [int] by a float literal in IEEE binary64 and
    compares an [int] with a float exactly.  A finite double is
    [mant * 2^expo]; [round53] rounds to 53 significant bits, ties to even.
    The exponent range is not modelled: no quantity here is near it. *)
Module Float64.

Record float := { mant : Z; expo : Z }.

Definition bits (a : Z) : Z := if a =? 0 then 0 else Z.log2 a + 1.

Definition round53 (m e : Z) : float :=
  let a := Z.abs m in
  if bits a <=? 53 then {| mant := m; expo := e |}
  else
    let sh := bits a - 53 in
    let q := a / 2 ^ sh in
    let r := a mod 2 ^ sh in
    let half := 2 ^ (sh - 1) in
    let q' := if (half <? r) || ((r =? half) && Z.odd q) then q + 1 else q in
    {| mant := Z.sgn m * q'; expo := e + sh |}.

(** [float(n)]. *)
Definition of_int (n : Z) : float := round53 n 0.

Definition mul (a b : float) : float :=
  round53 (mant a * mant b) (expo a + expo b).

(** [n <= f] for an [int] [n]. *)
Definition int_le (n : Z) (f : float) : bool :=
  if 0 <=? expo f then n <=? mant f * 2 ^ expo f
  else n * 2 ^ (- expo f) <=? mant f.

(** The literals [0.5] and [0.8] ([0x1.999999999999ap-1]). *)
Definition lit_0_5 : float := {| mant := 1; expo := -1 |}.
Definition lit_0_8 : float := {| mant := 7205759403792794; expo := -53 |}.

End Float64.

(** Lines 285-293. *)
Definition performance_level (user_score total_questions : Z) : string :=
  if Float64.int_le user_score (Float64.mul (Float64.of_int total_questions) Float64.lit_0_5)
  then "Beginner"
  else if Float64.int_le user_score (Float64.mul (Float64.of_int total_questions) Float64.lit_0_8)
       then "Intermediate"
       else "Advanced".

(** ** Scoring loops *)

(** [answers.get(idx)]: [None] when nothing is recorded. *)
Definition answer_get (answers : gmap nat pyval) (idx : nat) : pyval :=
  default VNone (answers !! idx).

(** The [for] loop of lines 229-233 and 386-390, from index [idx] and with
    the running [score]; [correct_of] is what the loop body compares the
    answer with. *)
Fixpoint score_loop (correct_of : pyval -> res pyval) (answers : gmap nat pyval)
    (idx : nat) (quiz : list pyval) (score : Z) : res Z :=
  match quiz with
  | [] => Ok score
  | question :: rest =>
      correct ← correct_of question;
      let user_answer := answer_get answers idx in
      score_loop correct_of answers (S idx) rest
        (if py_eq user_answer correct then score + 1 else score)
  end.

(** Line 230: [question["options"][question["correct"]]]. *)
Definition correct_option (question : pyval) : res pyval :=
  options ← item question "options";
  key ← item question "correct";
  py_getitem options key.

(** Line 387: [question["correct"]]. *)
Definition correct_answer (question : pyval) : res pyval :=
  item question "correct".

Definition pre_score (quiz : list pyval) (answers : gmap nat pyval) : res Z :=
  score_loop correct_option answers 0 quiz 0.

Definition post_score (quiz : list pyval) (answers : gmap nat pyval) : res Z :=
  score_loop correct_answer answers 0 quiz 0.

(** ** The widgets of one run *)

Inductive level : Type := Easy | Medium | Hard.

Definition level_str (l : level) : string :=
  match l with Easy => "Easy" | Medium => "Medium" | Hard => "Hard" end.

(** What the widgets return during one run of the script.  A button is
    true in the run its click triggers; a radio gives the index the user
    chose, or nothing while it is untouched. *)
Record ui := {
  course_url : string;
  additional_topics : string;
  quiz_level : level;
  generate_quiz : bool;
  question_choice : nat -> option nat;
  submit_answers : bool;
  duration : Z;
  generate_roadmap : bool;
  post_learning_quiz_level : level;
  generate_post_quiz : bool;
  post_question_choice : nat -> option nat;
  submit_post_quiz : bool
}.

(** [st.radio(label, options, index=index)]: the option at the chosen
    index, at [index] while untouched; an index outside the options is
    refused, except that an empty radio at index 0 gives [None]. *)
Definition st_radio (options : list pyval) (index : nat) (choice : option nat) : res pyval :=
  let i := default index choice in
  match nth_error options i with
  | Some v => Ok v
  | None =>
      if is_empty options && Nat.eqb i 0 then Ok VNone
      else Raise (StreamlitAPIException "Radio index must be between 0 and length of options")
  end.

(** ** Assignments to [st.session_state] *)

Definition set_course_topics (v : pyval) (s : session) : session :=
  {| course_topics := Some v; quizzes := quizzes s; current_quiz := current_quiz s;
     selected_answers := selected_answers s; quiz_submitted := quiz_submitted s;
     last_quiz_score := last_quiz_score s; roadmap := roadmap s; post_quiz := post_quiz s;
     post_quiz_answers := post_quiz_answers s; post_quiz_submitted := post_quiz_submitted s;
     last_post_quiz_score := last_post_quiz_score s |}.

Definition set_quizzes (v : list score_result) (s : session) : session :=
  {| course_topics := course_topics s; quizzes := Some v; current_quiz := current_quiz s;
     selected_answers := selected_answers s; quiz_submitted := quiz_submitted s;
     last_quiz_score := last_quiz_score s; roadmap := roadmap s; post_quiz := post_quiz s;
     post_quiz_answers := post_quiz_answers s; post_quiz_submitted := post_quiz_submitted s;
     last_post_quiz_score := last_post_quiz_score s |}.

Definition set_current_quiz (v : list pyval) (s : session) : session :=
  {| course_topics := course_topics s; quizzes := quizzes s; current_quiz := Some v;
     selected_answers := selected_answers s; quiz_submitted := quiz_submitted s;
     last_quiz_score := last_quiz_score s; roadmap := roadmap s; post_quiz := post_quiz s;
     post_quiz_answers := post_quiz_answers s; post_quiz_submitted := post_quiz_submitted s;
     last_post_quiz_score := last_post_quiz_score s |}.

Definition set_selected_answers (v : gmap nat pyval) (s : session) : session :=
  {| course_topics := course_topics s; quizzes := quizzes s; current_quiz := current_quiz s;
     selected_answers := Some v; quiz_submitted := quiz_submitted s;
     last_quiz_score := last_quiz_score s; roadmap := roadmap s; post_quiz := post_quiz s;
     post_quiz_answers := post_quiz_answers s; post_quiz_submitted := post_quiz_submitted s;
     last_post_quiz_score := last_post_quiz_score s |}.

Definition set_quiz_submitted (v : bool) (s : session) : session :=
  {| course_topics := course_topics s; quizzes := quizzes s; current_quiz := current_quiz s;
     selected_answers := selected_answers s; quiz_submitted := Some v;
     last_quiz_score := last_quiz_score s; roadmap := roadmap s; post_quiz := post_quiz s;
     post_quiz_answers := post_quiz_answers s; post_quiz_submitted := post_quiz_submitted s;
     last_post_quiz_score := last_post_quiz_score s |}.

Definition set_last_quiz_score (v : Z) (s : session) : session :=
  {| course_topics := course_topics s; quizzes := quizzes s; current_quiz := current_quiz s;
     selected_answers := selected_answers s; quiz_submitted := quiz_submitted s;
     last_quiz_score := Some v; roadmap := roadmap s; post_quiz := post_quiz s;
     post_quiz_answers := post_quiz_answers s; post_quiz_submitted := post_quiz_submitted s;
     last_post_quiz_score := last_post_quiz_score s |}.

Definition set_roadmap (v : string) (s : session) : session :=
  {| course_topics := course_topics s; quizzes := quizzes s; current_quiz := current_quiz s;
     selected_answers := selected_answers s; quiz_submitted := quiz_submitted s;
     last_quiz_score := last_quiz_score s; roadmap := Some v; post_quiz := post_quiz s;
     post_quiz_answers := post_quiz_answers s; post_quiz_submitted := post_quiz_submitted s;
     last_post_quiz_score := last_post_quiz_score s |}.

Definition set_post_quiz (v : list pyval) (s : session) : session :=
  {| course_topics := course_topics s; quizzes := quizzes s; current_quiz := current_quiz s;
     selected_answers := selected_answers s; quiz_submitted := quiz_submitted s;
     last_quiz_score := last_quiz_score s; roadmap := roadmap s; post_quiz := Some v;
     post_quiz_answers := post_quiz_answers s; post_quiz_submitted := post_quiz_submitted s;
     last_post_quiz_score := last_post_quiz_score s |}.

Definition set_post_quiz_answers (v : gmap nat pyval) (s : session) : session :=
  {| course_topics := course_topics s; quizzes := quizzes s; current_quiz := current_quiz s;
     selected_answers := selected_answers s; quiz_submitted := quiz_submitted s;
     last_quiz_score := last_quiz_score s; roadmap := roadmap s; post_quiz := post_quiz s;
     post_quiz_answers := Some v; post_quiz_submitted := post_quiz_submitted s;
     last_post_quiz_score := last_post_quiz_score s |}.

Definition set_post_quiz_submitted (v : bool) (s : session) : session :=
  {| course_topics := course_topics s; quizzes := quizzes s; current_quiz := current_quiz s;
     selected_answers := selected_answers s; quiz_submitted := quiz_submitted s;
     last_quiz_score := last_quiz_score s; roadmap := roadmap s; post_quiz := post_quiz s;
     post_quiz_answers := post_quiz_answers s; post_quiz_submitted := Some v;
     last_post_quiz_score := last_post_quiz_score s |}.

Definition set_last_post_quiz_score (v : Z) (s : session) : session :=
  {| course_topics := course_topics s; quizzes := quizzes s; current_quiz := current_quiz s;
     selected_answers := selected_answers s; quiz_submitted := quiz_submitted s;
     last_quiz_score := last_quiz_score s; roadmap := roadmap s; post_quiz := post_quiz s;
     post_quiz_answers := post_quiz_answers s; post_quiz_submitted := post_quiz_submitted s;
     last_post_quiz_score := Some v |}.

(** [st.session_state[key]]: a missing key raises [KeyError]. *)
Definition read {A : Type} (key : string) (field : session -> option A) : app A :=
  s ← get_state;
  match field s with
  | Some v => mret v
  | None => lift (Raise (KeyError (VStr key)))
  end.

(** ** The script (lines 155-406) *)

(** [d.get(k, dflt)]. *)
Definition py_get (d : pyval) (k : string) (dflt : pyval) : res pyval :=
  match d with
  | VDict kv => Ok (default dflt (dict_get kv k))
  | _ => Raise (AttributeError "object has no attribute 'get'")
  end.

Definition question_label (idx : nat) : pyval := VInt (Z.of_nat idx + 1).

(** Home tab (lines 177-187); gives the new value of [course_data]. *)
Definition tab1 `{Env} (u : ui) (course_data : pyval) : app pyval :=
  show (StSubheader "Input Course URL");;
  if negb (String.eqb (course_url u) "") then
    '(data, error) ← lift (scrape_course (course_url u));
    if negb (String.eqb (default "" error) "") then
      show (StError (default "" error));;
      mret course_data
    else
      match data with
      | Some data =>
          show (StJson data);;
          topics ← lift (py_get data "What You'll Learn" (VList []));
          update (set_course_topics topics);;
          mret data
      | None =>
          show (StJson VNone);;
          lift (Raise (AttributeError "'NoneType' object has no attribute 'get'"))
      end
  else mret course_data.

(** Lines 211-221, one question. *)
Definition pre_display_question `{Env} (u : ui) (idx : nat) (question : pyval) : app unit :=
  mcq ← lift (item question "mcq");
  show (StWrite ("Q" ++ py_str (question_label idx) ++ ": " ++ py_str mcq));;
  options ← lift (item question "options");
  values ← lift (py_values options);
  selected ← lift (st_radio values 1 (question_choice u idx));
  (* Store selected answers in session state *)
  answers ← read "selected_answers" selected_answers;
  update (set_selected_answers (<[idx := selected]> answers)).

(** Lines 245-259, one question. *)
Definition pre_show_result `{Env} (idx : nat) (question : pyval) : app unit :=
  well_formed ← lift (has_key "mcq" question
                      <&&> (m ← item question "mcq"; mret (isinstance_str m)));
  (if well_formed : bool then
     mcq ← lift (item question "mcq");
     show (StWrite ("Q" ++ py_str (question_label idx) ++ ": " ++ py_str mcq))
   else
     show (StWarning ("Question " ++ py_str (question_label idx)
                      ++ " is invalid or missing required keys. Skipping.")));;
  correct ← lift (correct_option question);
  answers ← read "selected_answers" selected_answers;
  let user_answer := answer_get answers idx in
  if py_eq user_answer correct then
    show (StSuccess ("Your answer: " ++ py_str user_answer ++ " (Correct)"))
  else
    show (StError ("Your answer: " ++ py_str user_answer ++ " (Incorrect)"));;
    show (StWrite ("Correct answer: " ++ py_str correct)).

Definition is_some {A : Type} (o : option A) : bool :=
  match o with Some _ => true | None => false end.

(** Lines 195-207: the "Generate Quiz" button. *)
Definition tab2_generate `{Env} (u : ui) (course_data : pyval) : app unit :=
  let text_content := py_str course_data ++ additional_topics u in
  let quiz_level := level_str (quiz_level u) in
  when (generate_quiz u)
    (if negb (String.eqb (Text.strip text_content) "") then
       (* Generate questions using OpenAI *)
       questions ← fetch_questions text_content quiz_level;
       if negb (is_empty questions) then
         show (StSuccess "Quiz generated successfully!");;
         update (set_current_quiz questions);;
         update (set_selected_answers ∅);;
         update (set_quiz_submitted false)
       else show (StError "Failed to generate questions. Try again.")
     else show (StWarning "Enter some text to generate a quiz.")).

(** Lines 223-235: the guarded "Submit Answers" button.  The scoring loop
    reads [selected_answers] in every iteration; it is read once here, the
    loop does not change it. *)
Definition tab2_submit `{Env} (u : ui) : app unit :=
  s ← get_state;
  when (negb (default false (quiz_submitted s)) && submit_answers u)
    ((* Evaluate answers and calculate score *)
     update (set_quiz_submitted true);;
     quiz ← read "current_quiz" current_quiz;
     answers ← read "selected_answers" selected_answers;
     score ← lift (pre_score quiz answers);
     update (set_last_quiz_score score)).

(** Lines 237-270: the results, shown in every run once submitted. *)
Definition tab2_results `{Env} : app unit :=
  s ← get_state;
  when (default false (quiz_submitted s))
    (show (StSubheader "Quiz Results");;
     score ← read "last_quiz_score" last_quiz_score;
     quiz ← read "current_quiz" current_quiz;
     let total_questions := Z.of_nat (length quiz) in
     show (StWrite ("Your score: " ++ py_str (VInt score) ++ "/"
                    ++ py_str (VInt total_questions)));;
     (* Show correct answers and explanations *)
     for_enumerate 0 quiz pre_show_result;;
     (* Add quiz result to session history *)
     s ← get_state;
     when (negb (is_some (quizzes s))) (update (set_quizzes []));;
     history ← read "quizzes" quizzes;
     update (set_quizzes
               (history ++ [{| sr_date := date_today; sr_score := score;
                               sr_total := total_questions |}]))).

(** Pre-learning quiz tab (lines 190-270). *)
Definition tab2 `{Env} (u : ui) (course_data : pyval) : app unit :=
  show (StSubheader "Generate a Quiz");;
  tab2_generate u course_data;;
  (* If questions are available, display them *)
  s ← get_state;
  when (negb (is_empty (default [] (current_quiz s))))
    (quiz ← read "current_quiz" current_quiz;
     for_enumerate 0 quiz (pre_display_question u);;
     tab2_submit u;;
     (* Display results after submission *)
     tab2_results).

Definition roadmap_prompt `{Env} (all_topics : pyval) (performance_level : string)
    (duration : Z) : string :=
  let ind := "                       " in
  Text.nl
  ++ ind ++ "f" ++ Text.dq ++ "Create a detailed learning roadmap for the topic: "
       ++ py_str all_topics ++ ". " ++ Text.dq ++ Text.nl
  ++ ind ++ "f" ++ Text.dq ++ "Skill level: " ++ performance_level ++ ". Duration: "
       ++ py_str (VInt duration) ++ " weeks." ++ Text.dq ++ Text.nl
  ++ ind.

Definition roadmap_request (prompt : string) : chat_request :=
  {| model := "gpt-3.5-turbo";
     messages := [("system", "You are an expert education planner."); ("user", prompt)];
     temperature := None; max_tokens := 1000 |}.

(** Roadmap tab (lines 273-339). *)
Definition tab3 `{Env} (u : ui) (course_data : pyval) : app unit :=
  show (StSubheader "Personalized Learning Roadmap");;
  (* Check if quiz results and course topics are available *)
  s ← get_state;
  if is_some (last_quiz_score s) && is_some (course_topics s) then
    user_score ← read "last_quiz_score" last_quiz_score;
    quiz ← read "current_quiz" current_quiz;
    let total_questions := Z.of_nat (length quiz) in
    (* Determine performance level based on quiz score *)
    let performance_level := performance_level user_score total_questions in
    show (StWrite ("Your Score: " ++ py_str (VInt user_score) ++ "/"
                   ++ py_str (VInt total_questions)));;
    show (StWrite ("Performance Level: " ++ performance_level));;
    (* User input for roadmap customization *)
    show (StMarkdown "### Customize Your Roadmap");;
    let duration := duration u in
    (* Generate roadmap *)
    when (generate_roadmap u)
      (try_except is_Exception
         (let all_topics := course_data in
          let roadmap_prompt := roadmap_prompt all_topics performance_level duration in
          roadmap ← lift (ChatCompletion_create (roadmap_request roadmap_prompt));
          update (set_roadmap roadmap);;
          show (StSuccess "Roadmap generated!");;
          show (StMarkdown roadmap))
         (fun e => show (StError ("Error generating roadmap: " ++ exn_str e))))
  else
    show (StWarning "Complete a quiz in the Quizzes tab to unlock the roadmap feature.").

(** Lines 363-379, one question. *)
Definition post_display_question `{Env} (u : ui) (idx : nat) (question : pyval) : app unit :=
  type ← lift (item question "type");
  if py_eq type (VStr "mcq") then
    text ← lift (item question "question");
    show (StWrite ("Q" ++ py_str (question_label idx) ++ ": " ++ py_str text));;
    options ← lift (item question "options");
    values ← lift (py_values options);
    selected ← lift (st_radio values 0 (post_question_choice u idx));
    answers ← read "post_quiz_answers" post_quiz_answers;
    update (set_post_quiz_answers (<[idx := selected]> answers))
  else
    type ← lift (item question "type");
    if py_eq type (VStr "true_false") then
      text ← lift (item question "question");
      show (StWrite ("Q" ++ py_str (question_label idx) ++ ": " ++ py_str text));;
      selected ← lift (st_radio [VStr "True"; VStr "False"] 0 (post_question_choice u idx));
      answers ← read "post_quiz_answers" post_quiz_answers;
      update (set_post_quiz_answers (<[idx := VBool (py_eq selected (VStr "True"))]> answers))
    else mret tt.

(** Lines 398-406, one question. *)
Definition post_show_result `{Env} (idx : nat) (question : pyval) : app unit :=
  text ← lift (item question "question");
  show (StWrite ("Q" ++ py_str (question_label idx) ++ ": " ++ py_str text));;
  correct ← lift (correct_answer question);
  answers ← read "post_quiz_answers" post_quiz_answers;
  let user_answer := answer_get answers idx in
  if py_eq user_answer correct then
    show (StSuccess ("Your answer: " ++ py_str user_answer ++ " (Correct)"))
  else
    show (StError ("Your answer: " ++ py_str user_answer ++ " (Incorrect)"));;
    show (StWrite ("Correct answer: " ++ py_str correct)).

(** Lines 344-360: the "Generate Post-learning Quiz" button. *)
Definition tab4_generate `{Env} (u : ui) : app unit :=
  s ← get_state;
  if String.eqb (default "" (roadmap s)) "" then
    show (StWarning "Generate a roadmap first to create a post-learning quiz.")
  else
    roadmap_content ← read "roadmap" roadmap;
    let quiz_level := level_str (post_learning_quiz_level u) in
    when (generate_post_quiz u)
      (post_questions ← generate_post_learning_quiz roadmap_content quiz_level;
       if negb (is_empty post_questions) then
         show (StSuccess "Post-learning Quiz generated successfully!");;
         update (set_post_quiz post_questions);;
         update (set_post_quiz_answers ∅);;
         update (set_post_quiz_submitted false)
       else show (StError "Failed to generate post-learning questions. Try again.")).

(** Lines 381-391: the guarded "Submit Post-learning Quiz" button. *)
Definition tab4_submit `{Env} (u : ui) : app unit :=
  s ← get_state;
  when (negb (default false (post_quiz_submitted s)) && submit_post_quiz u)
    (update (set_post_quiz_submitted true);;
     quiz ← read "post_quiz" post_quiz;
     answers ← read "post_quiz_answers" post_quiz_answers;
     score ← lift (post_score quiz answers);
     update (set_last_post_quiz_score score)).

(** Lines 393-406. *)
Definition tab4_results `{Env} : app unit :=
  s ← get_state;
  when (default false (post_quiz_submitted s))
    (show (StSubheader "Post-learning Quiz Results");;
     score ← read "last_post_quiz_score" last_post_quiz_score;
     quiz ← read "post_quiz" post_quiz;
     let total_questions := Z.of_nat (length quiz) in
     show (StWrite ("Your score: " ++ py_str (VInt score) ++ "/"
                    ++ py_str (VInt total_questions)));;
     for_enumerate 0 quiz post_show_result).

(** Post-learning quiz tab (lines 341-406). *)
Definition tab4 `{Env} (u : ui) : app unit :=
  show (StSubheader "Generate Post-learning Quiz");;
  tab4_generate u;;
  s ← get_state;
  when (negb (is_empty (default [] (post_quiz s))))
    (quiz ← read "post_quiz" post_quiz;
     for_enumerate 0 quiz (post_display_question u);;
     tab4_submit u;;
     tab4_results).

Definition main `{Env} (u : ui) : app unit :=
  (* global variables *)
  let course_data := VDict [] in
  show (StTitle "Welcome to MindShift!");;
  show (StSubheader "Your Personalized Learning Platform");;
  (* Footer *)
  show (StMarkdown "---");;
  show (StMarkdown "### Ready to shift your mind? Let's get started!");;
  (* Initialize session state *)
  s ← get_state;
  when (negb (is_some (course_topics s))) (update (set_course_topics (VList [])));;
  s ← get_state;
  when (negb (is_some (quizzes s))) (update (set_quizzes []));;
  course_data ← tab1 u course_data;
  tab2 u course_data;;
  tab3 u course_data;;
  tab4 u.

(** The session a run of the script leaves behind. *)
Definition rerun `{Env} (u : ui) (s : session) : session :=
  state (fst (main u {| state := s; shown := [] |})).

(** ** Vocabulary of the properties *)

(** The answers a scoring loop compares with, when every lookup succeeds. *)
Fixpoint corrects (correct_of : pyval -> res pyval) (quiz : list pyval) : res (list pyval) :=
  match quiz with
  | [] => Ok []
  | question :: rest =>
      correct ← correct_of question;
      cs ← corrects correct_of rest;
      mret (correct :: cs)
  end.

(** The number of indices, counted from [idx], whose recorded answer equals
    the correct one. *)
Fixpoint matching (answers : gmap nat pyval) (idx : nat) (cs : list pyval) : Z :=
  match cs with
  | [] => 0
  | correct :: cs' =>
      (if py_eq (answer_get answers idx) correct then 1 else 0)
      + matching answers (S idx) cs'
  end.

(** [steps R m]: whatever [m] does, and whether or not it raises, the
    session it leaves is related by [R] to the session it found. *)
Definition steps {A : Type} (R : relation session) (m : app A) : Prop :=
  forall r, R (state r) (state (fst (m r))).

(** Once the pre-learning quiz is submitted, the flag, the score and the
    quiz stay as they are. *)
Definition submitted_stays (s s' : session) : Prop :=
  quiz_submitted s = Some true ->
  quiz_submitted s' = Some true /\
  last_quiz_score s' = last_quiz_score s /\
  current_quiz s' = current_quiz s.

(** The history only grows. *)
Definition history_grows (s s' : session) : Prop :=
  forall h, quizzes s = Some h -> exists h', quizzes s' = Some (h ++ h')%list.

(** ** A scripted environment *)

(** Stand-ins for the libraries, to run the script on concrete inputs: a
    tokenizer that splits at white space, a three-word stop list, a network
    that answers every request with [page], a document that is just the two
    optional regions, a completion service and a JSON parser with canned
    replies. *)
Module Scripted.

Fixpoint words_from (s cur : string) : list string :=
  match s with
  | EmptyString => if String.eqb cur "" then [] else [cur]
  | String c s' =>
      if Text.isspace_char c then
        if String.eqb cur "" then words_from s' "" else cur :: words_from s' ""
      else words_from s' (cur ++ String c EmptyString)
  end.

Definition split_words (s : string) : list string := words_from s "".

Record document := { learn_items : option (list string); skill_items : option (list string) }.

Inductive node : Type :=
| Soup (d : document)
| Region (items : list string)
| Leaf (s : string).

Definition node_find (n : node) (name cls : string) : option node :=
  match n with
  | Soup d =>
      if String.eqb name "section" && String.eqb cls "css-1t957yb" then Region <$> learn_items d
      else if String.eqb name "div" && String.eqb cls "css-1m3kxpf" then Region <$> skill_items d
      else None
  | _ => None
  end.

Definition node_find_all (n : node) (name : string) : list node :=
  match n with
  | Region items => map Leaf items
  | _ => []
  end.

Definition node_text (n : node) : string :=
  match n with Leaf s => s | _ => "" end.

Definition show_value (v : pyval) : string :=
  match v with
  | VNone => "None"
  | VBool true => "True"
  | VBool false => "False"
  | VStr s => s
  | VDict [] => "{}"
  | VList [] => "[]"
  | _ => "<value>"
  end.

Definition env (page : res response) (d : document) (completion : res string)
    (parsed : res pyval) : Env :=
  {| word_tokenize := split_words;
     stopwords_words := fun _ => ["the"; "a"; "of"];
     requests_get := fun _ _ => page;
     tag := node;
     BeautifulSoup := fun _ _ => Soup d;
     find := node_find;
     find_all := node_find_all;
     tag_text := node_text;
     ChatCompletion_create := fun _ => completion;
     json_loads := fun _ => parsed;
     py_str := show_value;
     exn_str := fun _ => "error";
     date_today := {| year := 2024; month := 1; day := 1 |} |}.

(** A site that answers every request with the given status and an
    empty document. *)
Definition page (status : Z) : res response :=
  Ok {| status_code := status; text := "" |}.

Definition no_page : res response := Raise (OtherError "no network").
Definition no_document : document := {| learn_items := None; skill_items := None |}.

(** An environment whose completion parses to [batch]. *)
Definition replying (batch : pyval) : Env :=
  env no_page no_document (Ok "reply") (Ok batch).

Definition site (status : Z) : Env :=
  env (page status) no_document (Ok "") (Ok VNone).

(** The widgets of a run: the button clicked, if any, and the index every
    radio holds. *)
Inductive button : Type :=
| NoButton | GenerateQuiz | SubmitAnswers | GenerateRoadmap
| GeneratePostQuiz | SubmitPostQuiz.

Definition is_button (a b : button) : bool :=
  match a, b with
  | GenerateQuiz, GenerateQuiz | SubmitAnswers, SubmitAnswers
  | GenerateRoadmap, GenerateRoadmap | GeneratePostQuiz, GeneratePostQuiz
  | SubmitPostQuiz, SubmitPostQuiz => true
  | _, _ => false
  end.

Definition widgets (clicked : button) (choice : option nat) : ui :=
  {| course_url := ""; additional_topics := "topics"; quiz_level := Easy;
     generate_quiz := is_button clicked GenerateQuiz;
     question_choice := fun _ => choice;
     submit_answers := is_button clicked SubmitAnswers;
     duration := 4;
     generate_roadmap := is_button clicked GenerateRoadmap;
     post_learning_quiz_level := Easy;
     generate_post_quiz := is_button clicked GeneratePostQuiz;
     post_question_choice := fun _ => choice;
     submit_post_quiz := is_button clicked SubmitPostQuiz |}.

(** Sample entries of a generated batch. *)
Definition capital_options : pyval :=
  VDict [("a", VStr "Paris"); ("b", VStr "Rome")].

Definition pre_mcq : pyval :=
  VDict [("mcq", VStr "Capital of France?"); ("options", capital_options);
         ("correct", VStr "a")].

Definition post_mcq : pyval :=
  VDict [("type", VStr "mcq"); ("question", VStr "Capital of France?");
         ("options", capital_options); ("correct", VStr "a")].

Definition post_true_false : pyval :=
  VDict [("type", VStr "true_false"); ("question", VStr "Paris is in France.");
         ("correct", VBool true)].

(** An MCQ whose options came back as a list. *)
Definition post_mcq_list_options : pyval :=
  VDict [("type", VStr "mcq"); ("question", VStr "Capital of France?");
         ("options", VList [VStr "Paris"; VStr "Rome"]); ("correct", VStr "Paris")].

(** An MCQ whose [correct] came back as a list. *)
Definition pre_mcq_list_key : pyval :=
  VDict [("mcq", VStr "Capital of France?"); ("options", capital_options);
         ("correct", VList [VStr "a"])].

(** Entries without the [type] or [mcq] key. *)
Definition untyped_entry : pyval := VDict [("question", VStr "Capital of France?")].

Definition essay_entry : pyval :=
  VDict [("type", VStr "essay"); ("question", VStr "Describe Paris.")].

Definition blank : run := {| state := new_session; shown := [] |}.

(** A session, run by run.  The user generates a one-question quiz, picks
    the first option (the right one) and submits, looks at the page once
    more, has a roadmap made, generates a fresh pre-learning quiz, then
    generates a two-question post-learning quiz and submits it with the
    first option of each radio: "Paris" and "True", both right. *)
Definition generated : session :=
  @rerun (replying (VList [pre_mcq])) (widgets GenerateQuiz None) new_session.

Definition submitted : session :=
  @rerun (replying VNone) (widgets SubmitAnswers (Some 0%nat)) generated.

Definition revisited : session :=
  @rerun (replying VNone) (widgets NoButton (Some 0%nat)) submitted.

Definition planned : session :=
  @rerun (env no_page no_document (Ok "Week 1: capitals") (Ok VNone))
    (widgets GenerateRoadmap (Some 0%nat)) revisited.

Definition regenerated : session :=
  @rerun (replying (VList [pre_mcq])) (widgets GenerateQuiz None) planned.

Definition post_generated : session :=
  @rerun (replying (VList [post_mcq; post_true_false]))
    (widgets GeneratePostQuiz (Some 0%nat)) regenerated.

Definition post_submitted : session :=
  @rerun (replying VNone) (widgets SubmitPostQuiz (Some 0%nat)) post_generated.

Definition first_result : score_result :=
  {| sr_date := {| year := 2024; month := 1; day := 1 |}; sr_score := 1; sr_total := 1 |}.

End Scripted.

(** ** Vocabulary of the further properties *)

(** A comprehension keeps [x] when its condition returns [True] on it. *)
Definition condition_true (cond : pyval -> res bool) (x : pyval) : bool :=
  match cond x with Ok true => true | _ => false end.

(** The warning of line 97. *)
Definition no_questions_warning : message :=
  StWarning "No valid questions were generated. OpenAI may have returned malformed data.".

(** The three levels of lines 285-293, in their order. *)
Definition level_rank (level : string) : nat :=
  if String.eqb level "Beginner" then 0
  else if String.eqb level "Intermediate" then 1 else 2.

(** [s] has a character that is not white space. *)
Fixpoint has_ink (s : string) : bool :=
  match s with
  | EmptyString => false
  | String c s' => negb (Text.isspace_char c) || has_ink s'
  end.

(** The session as lines 168-171 leave it. *)
Definition initialised (s : session) : session :=
  let s1 := if is_some (course_topics s) then s else set_course_topics (VList []) s in
  if is_some (quizzes s1) then s1 else set_quizzes [] s1.

(** What lines 160-165 show. *)
Definition banner : list message :=
  [StTitle "Welcome to MindShift!"; StSubheader "Your Personalized Learning Platform";
   StMarkdown "---"; StMarkdown "### Ready to shift your mind? Let's get started!"].

(** The headers of line 34. *)
Definition user_agent : list (string * string) := [("User-Agent", "Mozilla/5.0")].

(** The warning of line 339. *)
Definition roadmap_locked_warning : message :=
  StWarning "Complete a quiz in the Quizzes tab to unlock the roadmap feature.".

(** A submitted post-learning quiz stays submitted, with its score and its
    questions. *)
Definition post_submitted_stays (s s' : session) : Prop :=
  post_quiz_submitted s = Some true ->
  post_quiz_submitted s' = Some true /\
  last_post_quiz_score s' = last_post_quiz_score s /\
  post_quiz s' = post_quiz s.

(** What the script keeps true of the session: a stored quiz holds only
    entries that passed its filter and comes with its answer record and its
    flag; a flag comes with a quiz; a set flag comes with a score. *)
Definition coherent (s : session) : Prop :=
  (forall quiz, current_quiz s = Some quiz ->
     Forall (fun q => pre_condition q = Ok true) quiz /\
     is_Some (selected_answers s) /\ is_Some (quiz_submitted s)) /\
  (is_Some (quiz_submitted s) -> is_Some (current_quiz s)) /\
  (quiz_submitted s = Some true -> is_Some (last_quiz_score s)) /\
  (forall quiz, post_quiz s = Some quiz ->
     Forall (fun q => post_condition q = Ok true) quiz /\
     is_Some (post_quiz_answers s) /\ is_Some (post_quiz_submitted s)) /\
  (is_Some (post_quiz_submitted s) -> is_Some (post_quiz s)) /\
  (post_quiz_submitted s = Some true -> is_Some (last_post_quiz_score s)).

Definition stays_coherent (s s' : session) : Prop := coherent s -> coherent s'.

Definition stays_coherent_with_quiz (s s' : session) : Prop :=
  coherent s /\ is_Some (current_quiz s) -> coherent s' /\ is_Some (current_quiz s').

Definition stays_coherent_with_post_quiz (s s' : session) : Prop :=
  coherent s /\ is_Some (post_quiz s) -> coherent s' /\ is_Some (post_quiz s').

Definition keys_stay (s s' : session) : Prop :=
  (is_Some (course_topics s) -> is_Some (course_topics s')) /\
  (is_Some (quizzes s) -> is_Some (quizzes s')).

(** The sessions a browser session can be in: the empty one, and what a run
    of the script leaves of one, whatever the services answer and whatever
    the user does. *)
Inductive reachable : session -> Prop :=
| reachable_new : reachable new_session
| reachable_rerun (E : Env) (u : ui) (s : session) :
    reachable s -> reachable (@rerun E u s).

(** [displayed u idx quiz vs]: the loop of lines 211-221, started at index
    [idx], shows every question of [quiz] and the radios give [vs]. *)
Inductive displayed (u : ui) : nat -> list pyval -> list pyval -> Prop :=
| displayed_nil (idx : nat) : displayed u idx [] []
| displayed_cons (idx : nat) (question mcq options selected : pyval)
    (values quiz vs : list pyval) :
    item question "mcq" = Ok mcq ->
    item question "options" = Ok options ->
    py_values options = Ok values ->
    st_radio values 1 (question_choice u idx) = Ok selected ->
    displayed u (S idx) quiz vs ->
    displayed u idx (question :: quiz) (selected :: vs).

(** The answer record after the selections [vs] are stored from [idx] on. *)
Fixpoint recorded (idx : nat) (vs : list pyval) (answers : gmap nat pyval) : gmap nat pyval :=
  match vs with
  | [] => answers
  | v :: vs' => recorded (S idx) vs' (<[idx := v]> answers)
  end.

(** The number of positions at which a selection equals the correct value. *)
Fixpoint agreements (vs cs : list pyval) : Z :=
  match vs, cs with
  | v :: vs', c :: cs' => (if py_eq v c then 1 else 0) + agreements vs' cs'
  | _, _ => 0
  end.

(** ** Further scenes *)

Module Scenes.
Import Scripted.

(** A completion service that is out of reach, and one whose reply is no
    JSON. *)
Definition failing_service : Env :=
  env no_page no_document (Raise (OtherError "rate limit")) (Ok VNone).

Definition garbled_reply : Env :=
  env no_page no_document (Ok "no json") (Raise (JSONDecodeError "Expecting value")).

(** A course page with two learning objectives and one skill. *)
Definition course_page : document :=
  {| learn_items := Some ["  Learn the Basics of Proofs "; "the art of Induction"];
     skill_items := Some ["Logic"] |}.

Definition course_site : Env := env (page 200) course_page (Ok "") (Ok VNone).

Definition planner : Env := env no_page no_document (Ok "Week 1: capitals") (Ok VNone).

(** The user has typed a URL and presses nothing. *)
Definition visiting : ui :=
  {| course_url := "https://example.org/course"; additional_topics := "";
     quiz_level := Easy; generate_quiz := false; question_choice := fun _ => None;
     submit_answers := false; duration := 4; generate_roadmap := false;
     post_learning_quiz_level := Easy; generate_post_quiz := false;
     post_question_choice := fun _ => None; submit_post_quiz := false |}.

(** The user has typed blanks as additional topics and asks for a quiz. *)
Definition asking : ui :=
  {| course_url := ""; additional_topics := "   "; quiz_level := Easy;
     generate_quiz := true; question_choice := fun _ => None;
     submit_answers := false; duration := 4; generate_roadmap := false;
     post_learning_quiz_level := Easy; generate_post_quiz := false;
     post_question_choice := fun _ => None; submit_post_quiz := false |}.

(** A session that holds a fresh one-question quiz; the same with a score
    and topics, as the roadmap tab needs them; with a roadmap; and with a
    submitted post-learning quiz. *)
Definition fresh_quiz : session :=
  set_quiz_submitted false
    (set_selected_answers ∅ (set_current_quiz [pre_mcq] new_session)).

Definition scored : session :=
  set_last_quiz_score 1 (set_course_topics (VList []) fresh_quiz).

Definition with_plan : session := set_roadmap "Week 1: capitals" scored.

Definition post_done : session :=
  set_last_post_quiz_score 1
    (set_post_quiz_submitted true
       (set_post_quiz_answers ∅ (set_post_quiz [post_true_false] with_plan))).

Definition start (s : session) : run := {| state := s; shown := [] |}.



(** The submit action fired once more on the submitted quiz. *)
Definition submitted_again : session :=
  @rerun (replying VNone) (widgets SubmitAnswers (Some 0%nat)) submitted.

End Scenes.

(** * Properties *)

(** ** Performance level *)

Module Float64Facts.
Import Float64.

Lemma bits_small (a : Z) (n : Z) : 0 <= a < 2 ^ n -> 0 <= n -> bits a <= n.
Proof.
  intros [Ha Hlt] Hn. unfold bits.
  destruct (Z.eqb_spec a 0) as [-> | Hne]; [lia |].
  assert (Z.log2 a < n) by (apply Z.log2_lt_pow2; lia). lia.
Qed.

Lemma bits_spec (a : Z) : 0 < a -> 2 ^ (bits a - 1) <= a < 2 ^ bits a.
Proof.
  intros Ha. unfold bits.
  destruct (Z.eqb_spec a 0) as [-> | Hne]; [lia |].
  replace (Z.log2 a + 1 - 1) with (Z.log2 a) by lia.
  replace (Z.log2 a + 1) with (Z.succ (Z.log2 a)) by lia.
  apply Z.log2_spec; lia.
Qed.

Lemma of_int_exact (t : Z) : 0 <= t < 2 ^ 53 -> of_int t = {| mant := t; expo := 0 |}.
Proof.
  intros Ht. unfold of_int, round53.
  rewrite Z.abs_eq by lia.
  assert (bits t <= 53) by (apply bits_small; lia).
  destruct (Z.leb_spec (bits t) 53); [reflexivity | lia].
Qed.

Lemma int_le_half (s t : Z) :
  0 <= t < 2 ^ 53 ->
  int_le s (mul {| mant := t; expo := 0 |} lit_0_5) = (2 * s <=? t).
Proof.
  intros Ht. unfold mul, lit_0_5, round53; cbn [mant expo].
  rewrite Z.mul_1_r, Z.abs_eq by lia.
  assert (bits t <= 53) by (apply bits_small; lia).
  destruct (Z.leb_spec (bits t) 53); [| lia].
  unfold int_le; cbn [mant expo]. change (2 ^ (- (0 + -1))) with 2.
  change (0 <=? 0 + -1) with false. cbn match. f_equal. lia.
Qed.

Lemma int_le_four_fifths (s t : Z) :
  0 <= t < 2 ^ 49 ->
  int_le s (mul {| mant := t; expo := 0 |} lit_0_8) = (5 * s <=? 4 * t).
Proof.
  intros Ht. unfold mul, lit_0_8, round53; cbn [mant expo].
  set (M := 7205759403792794).
  assert (HM : 5 * M = 2 ^ 55 + 2) by reflexivity.
  assert (Ha : 0 <= t * M) by (subst M; lia).
  rewrite (Z.abs_eq (t * M)) by exact Ha.
  destruct (Z.leb_spec (bits (t * M)) 53) as [Hb | Hb].
  - unfold int_le; cbn [mant expo].
    change (0 <=? 0 + -53) with false. cbn match.
    change (- (0 + -53)) with 53.
    assert (t * M < 2 ^ 53).
    { destruct (Z.eq_dec (t * M) 0) as [-> | Hne]; [reflexivity |].
      pose proof (bits_spec (t * M) ltac:(lia)) as [_ Hlt].
      eapply Z.lt_le_trans; [exact Hlt |]. apply Z.pow_le_mono_r; lia. }
    assert (t = 0 \/ t = 1) as [-> | ->] by (subst M; lia).
    + destruct (Z.leb_spec (s * 2 ^ 53) (0 * M)), (Z.leb_spec (5 * s) (4 * 0)); subst M; lia.
    + destruct (Z.leb_spec (s * 2 ^ 53) (1 * M)), (Z.leb_spec (5 * s) (4 * 1)); subst M; lia.
  - assert (Hpos : 0 < t * M) by (unfold bits in Hb; destruct (Z.eqb_spec (t * M) 0); lia).
    pose proof (bits_spec (t * M) Hpos) as [Hlo Hhi].
    assert (Hb102 : bits (t * M) <= 102).
    { apply bits_small; [| lia]. split; [lia |].
      change (2 ^ 102) with (2 ^ 49 * 2 ^ 53). subst M. nia. }
    set (sh := bits (t * M) - 53) in *.
    assert (Hsh : 1 <= sh <= 49) by lia.
    set (P := 2 ^ sh).
    assert (HP : 0 < P) by (apply Z.pow_pos_nonneg; lia).
    assert (HP49 : P <= 2 ^ 49) by (apply Z.pow_le_mono_r; lia).
    set (K := 2 ^ (53 - sh)).
    assert (HPK : P * K = 2 ^ 53).
    { subst P K. rewrite <- Z.pow_add_r by lia. f_equal. lia. }
    assert (HK : 0 < K) by (apply Z.pow_pos_nonneg; lia).
    pose proof (Z.div_mod (t * M) P ltac:(lia)) as Hdm.
    pose proof (Z.mod_pos_bound (t * M) P HP) as Hr.
    set (q := t * M / P) in *. set (r := (t * M) mod P) in *.
    set (q' := if (2 ^ (sh - 1) <? r) || (r =? 2 ^ (sh - 1)) && Z.odd q then q + 1 else q).
    assert (Hq' : q <= q' <= q + 1) by (subst q'; destruct (_ || _); lia).
    assert (Hsgn : Z.sgn (t * M) = 1) by (apply Z.sgn_pos; lia).
    rewrite Hsgn, Z.mul_1_l.
    unfold int_le; cbn [mant expo].
    destruct (Z.leb_spec 0 (0 + -53 + sh)); [lia |].
    replace (- (0 + -53 + sh)) with (53 - sh) by lia. fold K.
    change (2 ^ 53) with 9007199254740992 in HPK.
    change (2 ^ 55 + 2) with 36028797018963970 in HM.
    change (2 ^ 49) with 562949953421312 in *.
    destruct (Z.leb_spec (s * K) q'), (Z.leb_spec (5 * s) (4 * t)); try reflexivity; exfalso.
    + (* s*K <= q' but 5s > 4t *)
      assert (5 * (s * K) * P >= (4 * t + 1) * 9007199254740992) by nia.
      assert (5 * q' * P <= 5 * (t * M) + 5 * P) by nia.
      nia.
    + (* q' < s*K but 5s <= 4t *)
      assert (5 * (s * K * P) <= 5 * (t * M)) by nia.
      assert (s * K * P < (q + 1) * P) by nia.
      assert (s * K < q + 1) by nia.
      lia.
Qed.
End Float64Facts.

(** C4: for a score [s] out of [t] questions, the level is Beginner when
    [s <= 0.5 t], Intermediate when [0.5 t < s <= 0.8 t] and Advanced above;
    a score of exactly half the total is Beginner and one of exactly four
    fifths is Intermediate.  The bound on [t] keeps the double products in
    the range where the rounding of [t * 0.8] cannot reach the next
    integer. *)
Theorem performance_level_bands (s t : Z) :
  0 <= t < 2 ^ 49 ->
  ((inject_Z s <= (1 # 2) * inject_Z t)%Q -> performance_level s t = "Beginner") /\
  (((1 # 2) * inject_Z t < inject_Z s)%Q -> (inject_Z s <= (4 # 5) * inject_Z t)%Q ->
   performance_level s t = "Intermediate") /\
  (((4 # 5) * inject_Z t < inject_Z s)%Q -> performance_level s t = "Advanced") /\
  (2 * s = t -> performance_level s t = "Beginner") /\
  (0 < t -> 5 * s = 4 * t -> performance_level s t = "Intermediate").
Proof.
  intros Ht. unfold performance_level.
  rewrite Float64Facts.of_int_exact by (change (2 ^ 49) with 562949953421312 in Ht;
                                        change (2 ^ 53) with 9007199254740992; lia).
  rewrite Float64Facts.int_le_half by (change (2 ^ 49) with 562949953421312 in Ht;
                                       change (2 ^ 53) with 9007199254740992; lia).
  rewrite Float64Facts.int_le_four_fifths by exact Ht.
  unfold Qle, Qlt, Qmult, inject_Z; cbn [Qnum Qden Pos.mul].
  destruct (Z.leb_spec (2 * s) t), (Z.leb_spec (5 * s) (4 * t));
    repeat split; intros; try reflexivity; exfalso; lia.
Qed.

Lemma performance_level_bands_witness :
  0 <= 5 < 2 ^ 49 /\ 0 < 5 /\ 5 * 4 = 4 * 5 /\ performance_level 4 5 = "Intermediate".
Proof.
  assert (H : 0 <= 5 < 2 ^ 49) by (split; [lia | reflexivity]).
  split; [exact H |]. split; [lia |]. split; [reflexivity |].
  apply (performance_level_bands 4 5 H); lia.
Defined.

(** ** Text normaliser *)

Module TextFacts.
Import Text.

Lemma lower_char_idem (c : ascii) : lower_char (lower_char c) = lower_char c.
Proof. destruct c as [[] [] [] [] [] [] [] []]; reflexivity. Qed.

Lemma alpha_not_space (c : ascii) : isalpha_char c = true -> isspace_char c = false.
Proof. destruct c as [[] [] [] [] [] [] [] []]; (reflexivity || discriminate). Qed.

Lemma lower_idem (s : string) : lower (lower s) = lower s.
Proof. induction s as [| c s IH]; cbn; [reflexivity |]. by rewrite lower_char_idem, IH. Qed.

Lemma append_cons (c : ascii) (a b : string) : String c a ++ b = String c (a ++ b).
Proof. reflexivity. Qed.

Lemma lower_app (a b : string) : lower (a ++ b) = lower a ++ lower b.
Proof.
  induction a as [| c a IH]; [reflexivity |].
  rewrite append_cons. cbn [lower]. by rewrite IH, append_cons.
Qed.

Lemma lower_join (ws : list string) :
  Forall (fun w => lower w = w) ws -> lower (join " " ws) = join " " ws.
Proof.
  induction 1 as [| w ws Hw _ IH]; [reflexivity |].
  destruct ws as [| w' ws]; cbn [join]; [exact Hw |].
  rewrite !lower_app, Hw. cbn [join] in IH. by rewrite IH.
Qed.
End TextFacts.

(** The scripted tokenizer is a tokenizer of the kind the normaliser needs:
    it keeps lower-case text lower-case and splits a space-joined sequence of
    alphabetic words back into those words. *)
Module ScriptedFacts.
Import Text Scripted.

Lemma append_nil_r (s : string) : s ++ "" = s.
Proof. induction s as [| c s IH]; [reflexivity |]. by rewrite TextFacts.append_cons, IH. Qed.

Lemma append_assoc (a b c : string) : (a ++ b) ++ c = a ++ (b ++ c).
Proof. induction a as [| x a IH]; [reflexivity |]. by rewrite !TextFacts.append_cons, IH. Qed.

Lemma words_from_lower (s cur : string) :
  lower s = s -> lower cur = cur -> Forall (fun w => lower w = w) (words_from s cur).
Proof.
  revert cur. induction s as [| c s IH]; intros cur Hs Hcur; cbn [words_from].
  - destruct (String.eqb cur ""); [constructor | by repeat constructor].
  - cbn [lower] in Hs. injection Hs as Hc Hs.
    destruct (isspace_char c).
    + destruct (String.eqb cur ""); [by apply IH |].
      constructor; [exact Hcur | by apply IH].
    + apply IH; [exact Hs |].
      rewrite TextFacts.lower_app, Hcur. cbn [lower]. by rewrite Hc.
Qed.

Lemma split_words_lowercase (s : string) :
  lower s = s -> Forall (fun w => lower w = w) (split_words s).
Proof. intros Hs. by apply words_from_lower. Qed.

Lemma words_from_word (w rest cur : string) :
  all_alpha w = true -> words_from (w ++ rest) cur = words_from rest (cur ++ w).
Proof.
  revert cur. induction w as [| c w IH]; intros cur Hw.
  - by rewrite append_nil_r.
  - cbn [all_alpha] in Hw. apply andb_true_iff in Hw as [Hc Hw].
    rewrite TextFacts.append_cons. cbn [words_from].
    rewrite (TextFacts.alpha_not_space c Hc), (IH _ Hw), append_assoc.
    by rewrite TextFacts.append_cons.
Qed.

Lemma isalpha_inv (w : string) :
  isalpha w = true -> all_alpha w = true /\ String.eqb w "" = false.
Proof. destruct w; [discriminate | by split]. Qed.

Lemma split_words_join (ws : list string) :
  Forall (fun w => isalpha w = true) ws -> split_words (join " " ws) = ws.
Proof.
  unfold split_words. induction 1 as [| w ws Hw _ IH]; [reflexivity |].
  apply isalpha_inv in Hw as [Hall Hne].
  destruct ws as [| w' ws].
  - cbn [join]. rewrite <- (append_nil_r w) at 1.
    rewrite (words_from_word w "" "" Hall). cbn [words_from].
    change ("" ++ w) with w. by rewrite Hne.
  - change (join " " (w :: w' :: ws)) with (w ++ " " ++ join " " (w' :: ws)).
    rewrite (words_from_word w _ "" Hall).
    change ("" ++ w) with w.
    change (" " ++ join " " (w' :: ws)) with (String " " (join " " (w' :: ws))).
    cbn [words_from]. change (isspace_char " ") with true. cbn match.
    by rewrite Hne, IH.
Qed.
End ScriptedFacts.

Section Filter.
Context {A : Type} (P : A -> Prop) `{!forall x, Decision (P x)}.

Lemma filter_keeps_all (l : list A) : Forall P l -> filter P l = l.
Proof.
  induction 1 as [| x l Hx _ IH]; [reflexivity |].
  by rewrite filter_cons_True, IH.
Qed.

Lemma Forall_filter_self (l : list A) : Forall P (filter P l).
Proof. apply Forall_forall. intros x Hx. by apply list_elem_of_filter in Hx as [? _]. Qed.

Lemma filter_sublist_mono (l1 l2 : list A) :
  l1 `sublist_of` l2 -> filter P l1 `sublist_of` filter P l2.
Proof.
  induction 1 as [| x l1 l2 _ IH | x l1 l2 _ IH]; [constructor | |].
  - destruct (decide (P x)) as [Hx | Hx].
    + rewrite !filter_cons_True by done. by constructor.
    + by rewrite !filter_cons_False.
  - destruct (decide (P x)) as [Hx | Hx].
    + rewrite filter_cons_True by done. by constructor.
    + by rewrite filter_cons_False.
Qed.

(** The filtered list is the greatest sub-list whose elements all satisfy
    the condition. *)
Lemma filter_greatest (l ws : list A) :
  ws `sublist_of` l -> Forall P ws -> ws `sublist_of` filter P l.
Proof.
  intros Hsub Hall. rewrite <- (filter_keeps_all ws Hall). by apply filter_sublist_mono.
Qed.
End Filter.

Section Normalizer.
Context `{E : Env}.

(** What the normaliser relies on from NLTK's tokenizer: it finds no token
    in the empty string, it puts no upper-case letter into lower-case
    text, and it splits alphabetic tokens of its own, joined by single
    spaces, into the same tokens. *)
Hypothesis tokenize_empty : word_tokenize "" = [].
Hypothesis tokenize_lowercase :
  forall s, Text.lower s = s -> Forall (fun w => Text.lower w = w) (word_tokenize s).
Hypothesis tokenize_stable :
  forall s ws, ws `sublist_of` word_tokenize s ->
               Forall (fun w => Text.isalpha w = true) ws ->
               word_tokenize (Text.join " " ws) = ws.

Lemma clean_text_unfold (text : string) :
  clean_text text = Text.join " " (filter kept (word_tokenize (Text.lower text))).
Proof. reflexivity. Qed.

Lemma kept_tokens_lowercase (text : string) :
  Forall (fun w => Text.lower w = w) (filter kept (word_tokenize (Text.lower text))).
Proof.
  apply Forall_forall. intros w Hw. apply list_elem_of_filter in Hw as [_ Hin].
  pose proof (tokenize_lowercase _ (TextFacts.lower_idem text)) as Hall.
  rewrite Forall_forall in Hall. by apply Hall.
Qed.

(** C7: the output is the space-joined sequence of the tokens that are
    alphabetic and outside the stop-word list, all of them and only them,
    in the order the tokenizer gave them for the lower-cased input: they
    are lower-case, alphabetic and no stop words; every such token of the
    input is among them; they form the greatest such sub-sequence of the
    tokenizer's output (no qualifying occurrence is dropped, none is
    moved); and the empty input gives the empty output. *)
Theorem clean_text_tokens (text : string) :
  (exists ws : list string,
      clean_text text = Text.join " " ws /\
      Forall (fun w => Text.lower w = w /\ Text.isalpha w = true /\
                       w ∉ stopwords_words "english") ws /\
      ws `sublist_of` word_tokenize (Text.lower text) /\
      (forall w, w ∈ word_tokenize (Text.lower text) ->
                 Text.isalpha w = true -> w ∉ stopwords_words "english" -> w ∈ ws) /\
      (forall ws', ws' `sublist_of` word_tokenize (Text.lower text) ->
                   Forall (fun w => Text.isalpha w = true /\
                                    w ∉ stopwords_words "english") ws' ->
                   ws' `sublist_of` ws)) /\
  clean_text "" = "".
Proof using tokenize_empty tokenize_lowercase.
  split.
  - exists (filter kept (word_tokenize (Text.lower text))).
    split; [apply clean_text_unfold |]. split; [| split; [apply sublist_filter | split]].
    + pose proof (kept_tokens_lowercase text) as Hlow.
      rewrite Forall_forall in Hlow. apply Forall_forall. intros w Hw.
      split; [by apply Hlow |].
      apply list_elem_of_filter in Hw as [[Hstop Halpha] Hin].
      split; [exact Halpha |].
      intros Hmem. apply Hstop. by apply elem_of_list_to_set.
    + intros w Hin Halpha Hstop. apply list_elem_of_filter. split; [| exact Hin].
      split; [| exact Halpha]. intros Hmem. apply Hstop. by apply elem_of_list_to_set in Hmem.
    + intros ws' Hsub Hall. apply filter_greatest; [exact Hsub |].
      eapply Forall_impl; [exact Hall |]. intros w [Halpha Hstop].
      split; [| exact Halpha]. intros Hmem. apply Hstop. by apply elem_of_list_to_set in Hmem.
  - rewrite clean_text_unfold. cbn [Text.lower]. by rewrite tokenize_empty.
Qed.

(** C8: normalising twice is normalising once. *)
Theorem clean_text_idempotent (text : string) :
  clean_text (clean_text text) = clean_text text.
Proof using tokenize_lowercase tokenize_stable.
  rewrite (clean_text_unfold text).
  set (ws := filter kept (word_tokenize (Text.lower text))).
  assert (Hkept : Forall kept ws) by apply Forall_filter_self.
  assert (Hsub : ws `sublist_of` word_tokenize (Text.lower text)) by apply sublist_filter.
  rewrite clean_text_unfold, (TextFacts.lower_join ws (kept_tokens_lowercase text)).
  rewrite (tokenize_stable (Text.lower text) ws Hsub).
  - by rewrite (filter_keeps_all kept ws Hkept).
  - eapply Forall_impl; [exact Hkept |]. by intros w [_ ?].
Qed.
End Normalizer.

Lemma clean_text_tokens_witness :
  (exists ws : list string,
      @clean_text (Scripted.replying VNone) "The Art of WAR 2" = Text.join " " ws /\
      Forall (fun w => Text.lower w = w /\ Text.isalpha w = true /\
                       w ∉ @stopwords_words (Scripted.replying VNone) "english") ws /\
      ws `sublist_of` @word_tokenize (Scripted.replying VNone) (Text.lower "The Art of WAR 2") /\
      (forall w, w ∈ @word_tokenize (Scripted.replying VNone) (Text.lower "The Art of WAR 2") ->
                 Text.isalpha w = true ->
                 w ∉ @stopwords_words (Scripted.replying VNone) "english" -> w ∈ ws) /\
      (forall ws',
          ws' `sublist_of`
            @word_tokenize (Scripted.replying VNone) (Text.lower "The Art of WAR 2") ->
          Forall (fun w => Text.isalpha w = true /\
                           w ∉ @stopwords_words (Scripted.replying VNone) "english") ws' ->
          ws' `sublist_of` ws)) /\
  @clean_text (Scripted.replying VNone) "" = "".
Proof.
  apply (@clean_text_tokens (Scripted.replying VNone)).
  - reflexivity.
  - exact ScriptedFacts.split_words_lowercase.
Defined.

Lemma clean_text_idempotent_witness :
  @clean_text (Scripted.replying VNone)
    (@clean_text (Scripted.replying VNone) "The Art of WAR 2")
  = @clean_text (Scripted.replying VNone) "The Art of WAR 2".
Proof.
  apply (@clean_text_idempotent (Scripted.replying VNone)).
  - exact ScriptedFacts.split_words_lowercase.
  - intros s ws _. exact (ScriptedFacts.split_words_join ws).
Defined.

(** ** Scraper *)

(** C6, amended: a response whose status is not 200 gives no content and
    the fixed message "Failed to fetch content"; a 200 response whose
    document has neither region gives the two empty lists and no error. *)
Theorem scrape_course_outcomes `{Env} (url : string) (r : response) :
  requests_get url [("User-Agent", "Mozilla/5.0")] = Ok r ->
  (status_code r <> 200 ->
   scrape_course url = Ok (None, Some "Failed to fetch content")) /\
  (status_code r = 200 ->
   find (BeautifulSoup (text r) "html.parser") "section" "css-1t957yb" = None ->
   find (BeautifulSoup (text r) "html.parser") "div" "css-1m3kxpf" = None ->
   scrape_course url =
     Ok (Some (VDict [("What You'll Learn", VList []); ("Skills You'll Gain", VList [])]),
         None)).
Proof.
  intros Hget. unfold scrape_course. rewrite Hget. cbn [mbind res_bind].
  split.
  - intros Hne. destruct (Z.eqb_spec (status_code r) 200); [contradiction | reflexivity].
  - intros Hok Hlearn Hskills. rewrite Hok, Hlearn, Hskills. reflexivity.
Qed.

Lemma scrape_course_outcomes_witness :
  @scrape_course (Scripted.site 404) "u" = Ok (None, Some "Failed to fetch content") /\
  @scrape_course (Scripted.site 200) "u" =
    Ok (Some (VDict [("What You'll Learn", VList []); ("Skills You'll Gain", VList [])]),
        None).
Proof.
  split.
  - apply (proj1 (@scrape_course_outcomes (Scripted.site 404) "u"
                    {| status_code := 404; text := "" |} eq_refl)).
    cbn. lia.
  - apply (proj2 (@scrape_course_outcomes (Scripted.site 200) "u"
                    {| status_code := 200; text := "" |} eq_refl)); reflexivity.
Defined.

(** C6 as stated fails: the error is the same for every status, so no
    status can be read back from it. *)
Lemma scrape_error_forgets_status :
  @scrape_course (Scripted.site 404) "u" = Ok (None, Some "Failed to fetch content") /\
  @scrape_course (Scripted.site 500) "u" = Ok (None, Some "Failed to fetch content") /\
  ~ (exists status_of : string -> Z,
        forall status, status <> 200 ->
          exists e, @scrape_course (Scripted.site status) "u" = Ok (None, Some e) /\
                    status_of e = status).
Proof.
  split; [reflexivity |]. split; [reflexivity |].
  intros [status_of Hcarry].
  destruct (Hcarry 404 ltac:(lia)) as (e1 & H1 & S1).
  destruct (Hcarry 500 ltac:(lia)) as (e2 & H2 & S2).
  cbv in H1, H2. congruence.
Qed.

(** ** Generators *)

Lemma comprehension_retains (cond : pyval -> res bool) (xs ys : list pyval) :
  comprehension cond xs = Ok ys ->
  ys `sublist_of` xs /\ Forall (fun y => cond y = Ok true) ys.
Proof.
  revert ys. induction xs as [| x xs IH]; intros ys; cbn [comprehension].
  - intros [= <-]. split; constructor.
  - destruct (cond x) as [b |] eqn:Hx; cbn [mbind res_bind]; [| discriminate].
    destruct (comprehension cond xs) as [rest |]; cbn [mbind res_bind]; [| discriminate].
    destruct (IH rest eq_refl) as [Hsub Hall].
    intros [= <-]. destruct b.
    + split; [by constructor | by constructor].
    + split; [by constructor | exact Hall].
Qed.

Lemma item_dict (d : list (string * pyval)) (k : string) :
  item (VDict d) k =
    match dict_get d k with Some v => Ok v | None => Raise (KeyError (VStr k)) end.
Proof. reflexivity. Qed.

Lemma has_key_dict (d : list (string * pyval)) (k : string) :
  has_key k (VDict d) = Ok (match dict_get d k with Some _ => true | None => false end).
Proof. reflexivity. Qed.

Lemma py_in_dict_true (x : pyval) (d : list (string * pyval)) :
  py_in x (VDict d) = Ok true -> exists k, x = VStr k /\ is_Some (dict_get d k).
Proof.
  unfold py_in. destruct (hashable x); [| discriminate].
  destruct x; try discriminate.
  destruct (dict_get d s) eqn:Hs; [| discriminate]. intros _. eauto.
Qed.

Lemma pre_condition_valid (question : pyval) :
  pre_condition question = Ok true ->
  valid_mcq question /\ exists text, item question "mcq" = Ok (VStr text).
Proof.
  unfold pre_condition, valid_mcq. destruct question as [| | | | | | d]; try discriminate.
  cbn [isinstance_dict and_then]. rewrite !has_key_dict, !item_dict.
  destruct (dict_get d "mcq") as [m |]; [| discriminate].
  cbn [and_then mbind res_bind mret res_ret].
  destruct m; try discriminate. cbn [isinstance_str and_then].
  destruct (dict_get d "options") as [o |]; [| discriminate].
  cbn [and_then mbind res_bind mret res_ret].
  destruct o as [| | | | | | options]; try discriminate. cbn [isinstance_dict and_then].
  destruct (dict_get d "correct") as [c |]; [| discriminate]. cbn [and_then mbind res_bind].
  intros Hin. apply py_in_dict_true in Hin as (k & -> & Hk).
  split; [exists options, k; auto | exists s; reflexivity].
Qed.

Lemma post_condition_valid (question : pyval) :
  post_condition question = Ok true ->
  exists type,
    item question "type" = Ok type /\
    ((py_eq type (VStr "mcq") = true /\
      exists options correct,
        item question "options" = Ok options /\ item question "correct" = Ok correct /\
        py_in correct options = Ok true)
     \/ (py_eq type (VStr "true_false") = true /\ valid_true_false question)).
Proof.
  unfold post_condition, valid_true_false.
  destruct (item question "type") as [type |]; [| discriminate].
  cbn [mbind res_bind mret res_ret and_then or_else].
  intros H. exists type. split; [reflexivity |].
  destruct (py_eq type (VStr "mcq")) eqn:Hmcq; cbn [and_then or_else] in H.
  - destruct (has_key "options" question) as [[] |] eqn:Hopt; cbn [and_then or_else] in H;
      try discriminate.
    + destruct (item question "correct") as [c |]; [| discriminate].
      cbn [mbind res_bind] in H.
      destruct (item question "options") as [o |]; [| discriminate].
      cbn [mbind res_bind] in H.
      destruct (py_in c o) as [[] |] eqn:Hin; cbn [or_else] in H; try discriminate.
      * left. eauto 8.
      * right. destruct (py_eq type (VStr "true_false")); [| discriminate].
        cbn [and_then] in H.
        destruct (has_key "correct" question) as [[] |]; try discriminate.
        cbn [and_then mbind res_bind mret res_ret] in H.
        destruct c; try discriminate. eauto.
    + right. destruct (py_eq type (VStr "true_false")); [| discriminate].
      cbn [and_then] in H.
      destruct (has_key "correct" question) as [[] |]; try discriminate.
      cbn [and_then] in H.
      destruct (item question "correct") as [c |]; [| discriminate].
      cbn [mbind res_bind mret res_ret] in H. destruct c; try discriminate. eauto.
  - right. destruct (py_eq type (VStr "true_false")); [| discriminate].
    cbn [and_then] in H.
    destruct (has_key "correct" question) as [[] |]; try discriminate.
    cbn [and_then] in H.
    destruct (item question "correct") as [c |]; [| discriminate].
    cbn [mbind res_bind mret res_ret] in H. destruct c; try discriminate. eauto.
Qed.

Ltac unfold_app :=
  unfold try_except, when, read, lift, show, update, get_state;
  unfold mbind, app_bind, res_bind, mret, app_ret, res_ret;
  cbn beta iota.

Ltac returned :=
  cbn; repeat (destruct (is_JSONDecodeError _); cbn); do 2 eexists; reflexivity.

Section Generators.
Context `{E : Env}.

(** Neither generator lets an exception out, and neither touches the
    session. *)
Lemma fetch_questions_returns (text_content quiz_level : string) (r : run) :
  exists shown' valid_questions,
    fetch_questions text_content quiz_level r =
      ({| state := state r; shown := shown' |}, Ok valid_questions).
Proof.
  destruct r as [s out]. unfold fetch_questions. unfold_app.
  destruct (ChatCompletion_create _) as [response_text | e]; [| returned].
  destruct (json_loads response_text) as [questions | e]; [| returned].
  destruct (py_iter questions) as [items | e]; [| returned].
  destruct (comprehension pre_condition items) as [valid | e]; [| returned].
  destruct (is_empty valid); returned.
Qed.

Lemma generate_post_learning_quiz_returns (roadmap_content quiz_level : string) (r : run) :
  exists shown' valid_questions,
    generate_post_learning_quiz roadmap_content quiz_level r =
      ({| state := state r; shown := shown' |}, Ok valid_questions).
Proof.
  destruct r as [s out]. unfold generate_post_learning_quiz. unfold_app.
  destruct (ChatCompletion_create _) as [response_text | e]; [| returned].
  destruct (json_loads response_text) as [questions | e]; [| returned].
  destruct (py_iter questions) as [items | e]; [| returned].
  destruct (comprehension post_condition items) as [valid | e]; returned.
Qed.

(** What the pre-learning generator keeps of a parsed batch. *)
Lemma fetch_questions_retained (text_content quiz_level response_text : string)
    (batch : list pyval) (r r' : run) (valid_questions : list pyval) :
  ChatCompletion_create (quiz_request (pre_prompt text_content quiz_level)) = Ok response_text ->
  json_loads response_text = Ok (VList batch) ->
  fetch_questions text_content quiz_level r = (r', Ok valid_questions) ->
  valid_questions `sublist_of` batch /\ Forall valid_mcq valid_questions.
Proof.
  intros Hchat Hjson. unfold fetch_questions. unfold_app. rewrite Hchat, Hjson.
  cbn [py_iter].
  destruct (comprehension pre_condition batch) as [valid | e] eqn:Hc.
  - apply comprehension_retains in Hc as [Hsub Hall].
    assert (Forall valid_mcq valid).
    { eapply Forall_impl; [exact Hall |]. intros q Hq. by apply pre_condition_valid in Hq as [? _]. }
    destruct (is_empty valid); cbn; intros Heq; inversion Heq; by subst.
  - destruct (is_JSONDecodeError e); cbn; intros Heq; inversion Heq; subst;
      (split; [apply sublist_nil_l | constructor]).
Qed.
End Generators.

Section PostGenerator.
Context `{E : Env}.

(** What the post-learning generator keeps of a parsed batch: entries on
    which its condition is true, in their order. *)
Lemma generate_post_learning_quiz_retained (roadmap_content quiz_level response_text : string)
    (batch : list pyval) (r r' : run) (valid_questions : list pyval) :
  ChatCompletion_create (quiz_request (post_prompt roadmap_content quiz_level))
    = Ok response_text ->
  json_loads response_text = Ok (VList batch) ->
  generate_post_learning_quiz roadmap_content quiz_level r = (r', Ok valid_questions) ->
  valid_questions `sublist_of` batch /\
  Forall (fun q => post_condition q = Ok true) valid_questions.
Proof.
  intros Hchat Hjson. unfold generate_post_learning_quiz. unfold_app.
  rewrite Hchat, Hjson. cbn [py_iter].
  destruct (comprehension post_condition batch) as [valid | e] eqn:Hc.
  - apply comprehension_retains in Hc as [Hsub Hall].
    cbn; intros Heq; inversion Heq; by subst.
  - destruct (is_JSONDecodeError e); cbn; intros Heq; inversion Heq; subst;
      (split; [apply sublist_nil_l | constructor]).
Qed.
End PostGenerator.

(** C2 fails on the post-learning path: an MCQ whose [options] came back as
    a list that contains its [correct] value passes the filter, although it
    has no options mapping; the pre-learning filter, which checks that
    [options] is a dict, drops the same shape. *)
Theorem post_quiz_retains_list_options :
  @generate_post_learning_quiz (Scripted.replying (VList [Scripted.post_mcq_list_options]))
    "roadmap" "Easy" Scripted.blank
  = (Scripted.blank, Ok [Scripted.post_mcq_list_options]) /\
  item Scripted.post_mcq_list_options "options" = Ok (VList [VStr "Paris"; VStr "Rome"]) /\
  ~ valid_mcq Scripted.post_mcq_list_options /\
  pre_condition
    (VDict [("mcq", VStr "Capital of France?");
            ("options", VList [VStr "Paris"; VStr "Rome"]); ("correct", VStr "Paris")])
  = Ok false.
Proof.
  split; [reflexivity |]. split; [reflexivity |]. split; [| reflexivity].
  intros (options & key & Hoptions & _). discriminate Hoptions.
Qed.

(** C3 fails on the post-learning path: an entry without the [type] key
    raises inside the filter, the handler of the generator answers with an
    empty list and an error message, and the well-formed entry next to it is
    lost; a batch of entries of an unknown type is emptied without any
    message.  The pre-learning filter tests the keys first and keeps the
    well-formed neighbour of such an entry; it loses the batch all the same
    when a [correct] value cannot be hashed. *)
Theorem post_quiz_loses_batch_on_untyped_entry :
  post_condition Scripted.post_true_false = Ok true /\
  @generate_post_learning_quiz
    (Scripted.replying (VList [Scripted.untyped_entry; Scripted.post_true_false]))
    "roadmap" "Easy" Scripted.blank
  = ({| state := new_session;
        shown := [StError "Error generating post-learning quiz: error"] |}, Ok []) /\
  @generate_post_learning_quiz (Scripted.replying (VList [Scripted.essay_entry]))
    "roadmap" "Easy" Scripted.blank
  = (Scripted.blank, Ok []) /\
  @fetch_questions (Scripted.replying (VList [Scripted.untyped_entry; Scripted.pre_mcq]))
    "topics" "Easy" Scripted.blank
  = (Scripted.blank, Ok [Scripted.pre_mcq]) /\
  @fetch_questions (Scripted.replying (VList [Scripted.pre_mcq_list_key; Scripted.pre_mcq]))
    "topics" "Easy" Scripted.blank
  = ({| state := new_session; shown := [StError "Error generating quiz: error"] |}, Ok []).
Proof. repeat split; reflexivity. Qed.

(** ** Scoring *)

Section Scoring.
Variable correct_of : pyval -> res pyval.
Variable answers : gmap nat pyval.

Lemma score_loop_counts (quiz : list pyval) (idx : nat) (score : Z) :
  score_loop correct_of answers idx quiz score =
    (cs ← corrects correct_of quiz; mret (score + matching answers idx cs)).
Proof.
  revert idx score. induction quiz as [| question rest IH]; intros idx score.
  - cbn. f_equal. lia.
  - cbn [score_loop corrects]. destruct (correct_of question) as [correct |]; [| reflexivity].
    cbn [mbind res_bind]. rewrite IH.
    destruct (corrects correct_of rest) as [cs |]; [| reflexivity].
    cbn. f_equal. destruct (py_eq _ correct); lia.
Qed.


Lemma corrects_length (quiz cs : list pyval) :
  corrects correct_of quiz = Ok cs -> length cs = length quiz.
Proof.
  revert cs. induction quiz as [| q quiz IH]; intros cs; cbn [corrects].
  - by intros [= <-].
  - destruct (correct_of q); [| discriminate]. cbn [mbind res_bind].
    destruct (corrects correct_of quiz) as [cs' |]; [| discriminate]. cbn.
    intros Heq. inversion Heq. cbn. by rewrite (IH cs').
Qed.


Lemma score_loop_returns (quiz : list pyval) (idx : nat) (score : Z) :
  Forall (fun q => exists c, correct_of q = Ok c) quiz ->
  exists score', score_loop correct_of answers idx quiz score = Ok score'.
Proof.
  intros Hall. revert idx score. induction Hall as [| q quiz [c Hc] _ IH]; intros idx score.
  - by exists score.
  - cbn [score_loop]. rewrite Hc. cbn [mbind res_bind]. apply IH.
Qed.
End Scoring.




Lemma pre_condition_correct_option (question : pyval) :
  pre_condition question = Ok true -> exists c, correct_option question = Ok c.
Proof.
  intros Hq. apply pre_condition_valid in Hq as [(options & key & Ho & Hk & [v Hv]) _].
  exists v. unfold correct_option. rewrite Ho, Hk. cbn [mbind res_bind].
  unfold py_getitem. cbn [hashable]. by rewrite Hv.
Qed.

Lemma post_condition_correct_answer (question : pyval) :
  post_condition question = Ok true -> exists c, correct_answer question = Ok c.
Proof.
  intros Hq. apply post_condition_valid in Hq as (type & _ & [[_ H] | [_ H]]).
  - destruct H as (o & c & _ & Hc & _). by exists c.
  - destruct H as [b Hb]. by exists (VBool b).
Qed.





(** The pre-learning score is the number of indices whose recorded answer
    equals the option text under the correct key. *)
Lemma pre_score_counts (quiz : list pyval) (answers : gmap nat pyval) :
  pre_score quiz answers =
    (cs ← corrects correct_option quiz; mret (matching answers 0 cs)).
Proof. unfold pre_score. rewrite score_loop_counts. by destruct (corrects _ _). Qed.

Lemma matching_all (answers : gmap nat pyval) (idx : nat) (cs : list pyval) :
  (forall i c, cs !! i = Some c -> py_eq (answer_get answers (idx + i)) c = true) ->
  matching answers idx cs = Z.of_nat (length cs).
Proof.
  revert idx. induction cs as [| c cs IH]; intros idx Hall; [reflexivity |].
  cbn [matching length]. pose proof (Hall 0%nat c eq_refl) as H0.
  rewrite Nat.add_0_r in H0. rewrite H0, IH; [lia |].
  intros i c' Hi. specialize (Hall (S i) c' Hi). by rewrite Nat.add_succ_r in Hall.
Qed.

Lemma matching_none (answers : gmap nat pyval) (idx : nat) (cs : list pyval) :
  (forall i c, cs !! i = Some c -> py_eq (answer_get answers (idx + i)) c = false) ->
  matching answers idx cs = 0.
Proof.
  revert idx. induction cs as [| c cs IH]; intros idx Hall; [reflexivity |].
  cbn [matching]. pose proof (Hall 0%nat c eq_refl) as H0.
  rewrite Nat.add_0_r in H0. rewrite H0, IH; [lia |].
  intros i c' Hi. specialize (Hall (S i) c' Hi). by rewrite Nat.add_succ_r in Hall.
Qed.

(** On the pre-learning path a fully correct record scores the size of the
    quiz and a record without a match scores 0. *)
Lemma pre_score_extremes (quiz cs : list pyval) (answers : gmap nat pyval) :
  corrects correct_option quiz = Ok cs ->
  ((forall i c, cs !! i = Some c -> py_eq (answer_get answers i) c = true) ->
   pre_score quiz answers = Ok (Z.of_nat (length quiz))) /\
  ((forall i c, cs !! i = Some c -> py_eq (answer_get answers i) c = false) ->
   pre_score quiz answers = Ok 0).
Proof.
  intros Hcs. rewrite pre_score_counts, Hcs. cbn [mbind res_bind mret res_ret].
  split; intros Hall.
  - rewrite (matching_all answers 0 cs Hall). by rewrite (corrects_length _ _ _ Hcs).
  - by rewrite (matching_none answers 0 cs Hall).
Qed.

(** C1 fails on the post-learning path: the loop at lines 386-390 compares
    the recorded option text with the correct key, not with the option text
    under it.  The user of the scripted session answers both post-learning
    questions correctly and is given 1 out of 2; the same MCQ is scored as
    correct by the pre-learning loop. *)
Theorem post_mcq_scored_against_key :
  post_quiz Scripted.post_submitted = Some [Scripted.post_mcq; Scripted.post_true_false] /\
  post_quiz_answers Scripted.post_submitted ≫= (.!! 0%nat) = Some (VStr "Paris") /\
  post_quiz_answers Scripted.post_submitted ≫= (.!! 1%nat) = Some (VBool true) /\
  correct_option Scripted.post_mcq = Ok (VStr "Paris") /\
  correct_answer Scripted.post_true_false = Ok (VBool true) /\
  last_post_quiz_score Scripted.post_submitted = Some 1 /\
  post_score [Scripted.post_mcq] {[ 0%nat := VStr "Paris" ]} = Ok 0 /\
  pre_score [Scripted.pre_mcq] {[ 0%nat := VStr "Paris" ]} = Ok 1 /\
  last_quiz_score Scripted.submitted = Some 1.
Proof. repeat split; vm_compute; reflexivity. Qed.

(** ** Runs of the script *)

Section Steps.
Context (R : relation session) `{!PreOrder R}.

Lemma steps_ret {A : Type} (a : A) : steps R (mret a).
Proof. intros r. reflexivity. Qed.

Lemma steps_lift {A : Type} (x : res A) : steps R (lift x).
Proof. intros r. reflexivity. Qed.

Lemma steps_show (m : message) : steps R (show m).
Proof. intros r. reflexivity. Qed.

Lemma steps_get_state : steps R get_state.
Proof. intros r. reflexivity. Qed.

Lemma steps_update (f : session -> session) :
  (forall s, R s (f s)) -> steps R (update f).
Proof. intros Hf r. apply Hf. Qed.

Lemma steps_bind {A B : Type} (m : app A) (f : A -> app B) :
  steps R m -> (forall a, steps R (f a)) -> steps R (m ≫= f).
Proof.
  intros Hm Hf r. unfold mbind, app_bind.
  specialize (Hm r). destruct (m r) as [r' [a | e]]; cbn [fst] in *.
  - etransitivity; [exact Hm | apply Hf].
  - exact Hm.
Qed.

(** After [get_state] the continuation runs on the session it was given. *)
Lemma steps_inspect {A : Type} (f : session -> app A) :
  (forall r, R (state r) (state (fst (f (state r) r)))) -> steps R (get_state ≫= f).
Proof. intros Hf r. apply Hf. Qed.

Lemma steps_read {A : Type} (key : string) (field : session -> option A) :
  steps R (read key field).
Proof.
  apply steps_bind; [apply steps_get_state |].
  intros s. destruct (field s); [apply steps_ret | apply steps_lift].
Qed.

Lemma steps_when (b : bool) (body : app unit) : steps R body -> steps R (when b body).
Proof. destruct b; [done | intros _; apply steps_ret]. Qed.

Lemma steps_try_except {A : Type} (catches : exn -> bool) (body : app A)
    (handler : exn -> app A) :
  steps R body -> (forall e, steps R (handler e)) -> steps R (try_except catches body handler).
Proof.
  intros Hb Hh r. unfold try_except.
  specialize (Hb r). destruct (body r) as [r' [a | e]]; cbn [fst] in *; [exact Hb |].
  destruct (catches e); [| exact Hb].
  etransitivity; [exact Hb | apply Hh].
Qed.

Lemma steps_for_enumerate {A : Type} (xs : list A) (idx : nat) (body : nat -> A -> app unit) :
  (forall i x, steps R (body i x)) -> steps R (for_enumerate idx xs body).
Proof.
  intros Hbody. revert idx. induction xs as [| x xs IH]; intros idx; cbn [for_enumerate].
  - apply steps_ret.
  - apply steps_bind; [apply Hbody | intros _; apply IH].
Qed.

Lemma steps_same {A : Type} (m : app A) :
  (forall r, state (fst (m r)) = state r) -> steps R m.
Proof. intros Hm r. rewrite Hm. reflexivity. Qed.

Lemma steps_fetch_questions `{Env} (text_content quiz_level : string) :
  steps R (fetch_questions text_content quiz_level).
Proof.
  apply steps_same. intros r.
  destruct (fetch_questions_returns text_content quiz_level r) as (out & qs & ->).
  reflexivity.
Qed.

Lemma steps_generate_post_learning_quiz `{Env} (roadmap_content quiz_level : string) :
  steps R (generate_post_learning_quiz roadmap_content quiz_level).
Proof.
  apply steps_same. intros r.
  destruct (generate_post_learning_quiz_returns roadmap_content quiz_level r) as (out & qs & ->).
  reflexivity.
Qed.
End Steps.

(** Symbolic execution of straight-line script code: every primitive keeps
    [R], every assignment is left as a goal [R s (f s)]. *)
Ltac use lem := apply lem; try exact _.

Ltac step special :=
  first [ special |
  lazymatch goal with
  | |- steps _ (mret _) => use @steps_ret
  | |- steps _ (lift _) => use @steps_lift
  | |- steps _ (show _) => use @steps_show
  | |- steps _ get_state => use @steps_get_state
  | |- steps _ (read _ _) => use @steps_read
  | |- steps _ (fetch_questions _ _) => use @steps_fetch_questions
  | |- steps _ (generate_post_learning_quiz _ _) => use @steps_generate_post_learning_quiz
  | |- steps _ (update _) => use @steps_update; intros ?
  | |- steps _ (when false _) => use @steps_ret
  | |- steps _ (when _ _) => use @steps_when
  | |- steps _ (for_enumerate _ _ _) => use @steps_for_enumerate; intros ? ?
  | |- steps _ (try_except _ _ _) => use @steps_try_except; [| intros ?]
  | |- steps _ (mbind _ _) => use @steps_bind; [| intros ?]
  | |- steps _ (if ?b then _ else _) => destruct b
  | |- steps _ (match ?x with _ => _ end) => destruct x
  | |- steps _ _ => progress cbv zeta
  end ].

Ltac step_through_with special := repeat step special.
Ltac step_through := step_through_with fail.

#[local] Instance submitted_stays_preorder : PreOrder submitted_stays.
Proof.
  split.
  - by intros s Hs.
  - intros s1 s2 s3 H12 H23 H1. destruct (H12 H1) as (H2 & Hs & Hq).
    destruct (H23 H2) as (H3 & Hs' & Hq'). repeat split; congruence.
Qed.

#[local] Instance history_grows_preorder : PreOrder history_grows.
Proof.
  split.
  - intros s h Hh. exists []. by rewrite app_nil_r.
  - intros s1 s2 s3 H12 H23 h Hh. destruct (H12 h Hh) as [h' Hh'].
    destruct (H23 _ Hh') as [h'' Hh'']. exists (h' ++ h'')%list. by rewrite app_assoc.
Qed.

Section Script.
Context `{E : Env}.

Lemma tab1_submitted_stays u cd : steps submitted_stays (tab1 u cd).
Proof. unfold tab1. step_through. all: by intros ?. Qed.

Lemma tab3_submitted_stays u cd : steps submitted_stays (tab3 u cd).
Proof. unfold tab3. step_through; by intros ?. Qed.

Lemma tab4_submitted_stays u : steps submitted_stays (tab4 u).
Proof.
  unfold tab4, tab4_generate, tab4_submit, tab4_results, post_display_question,
    post_show_result.
  step_through; by intros ?.
Qed.

Lemma tab2_submit_submitted_stays u : steps submitted_stays (tab2_submit u).
Proof.
  unfold tab2_submit. apply steps_inspect. intros r Hsub.
  rewrite Hsub. cbn. done.
Qed.

Lemma tab2_submitted_stays u cd :
  generate_quiz u = false -> steps submitted_stays (tab2 u cd).
Proof.
  intros Hgen. unfold tab2, tab2_generate, tab2_results, pre_display_question,
    pre_show_result. rewrite Hgen.
  step_through_with
    ltac:(idtac; lazymatch goal with
          | |- steps _ (tab2_submit _) => apply tab2_submit_submitted_stays
          end);
    by intros ?.
Qed.

(** X18: the guard of line 223.  Once the pre-learning quiz is submitted,
    a run in which "Generate Quiz" is not pressed leaves it submitted, with
    the same score and the same questions, whatever else is pressed and
    whatever the services answer: the quiz is not scored a second time. *)
Theorem submitted_quiz_not_rescored (u : ui) (s : session) :
  quiz_submitted s = Some true ->
  generate_quiz u = false ->
  quiz_submitted (rerun u s) = Some true /\
  last_quiz_score (rerun u s) = last_quiz_score s /\
  current_quiz (rerun u s) = current_quiz s.
Proof.
  intros Hsub Hgen.
  assert (Hmain : steps submitted_stays (main u)).
  { unfold main.
    step_through_with
      ltac:(idtac; lazymatch goal with
            | |- steps _ (tab1 _ _) => apply tab1_submitted_stays
            | |- steps _ (tab2 _ _) => apply (tab2_submitted_stays _ _ Hgen)
            | |- steps _ (tab3 _ _) => apply tab3_submitted_stays
            | |- steps _ (tab4 _) => apply tab4_submitted_stays
            end);
      by intros ?. }
  exact (Hmain {| state := s; shown := [] |} Hsub).
Qed.

(** *** The history *)

Lemma other_field_history_grows (f : session -> session) (s : session) :
  quizzes (f s) = quizzes s -> history_grows s (f s).
Proof. intros Hf h Hh. exists []. by rewrite Hf, app_nil_r. Qed.

Lemma init_history_grows {A : Type} (rest : unit -> app A) :
  (forall a, steps history_grows (rest a)) ->
  steps history_grows
    (get_state ≫= fun s =>
       when (negb (is_some (quizzes s))) (update (set_quizzes [])) ≫= rest).
Proof.
  intros Hrest. apply steps_inspect. intros r h Hh.
  rewrite Hh. cbn [is_some negb when]. by apply (Hrest tt r).
Qed.

Lemma append_history_grows (entry : score_result) :
  steps history_grows
    (read "quizzes" quizzes ≫= fun history => update (set_quizzes (history ++ [entry]))).
Proof.
  intros [s out] h Hh. unfold read. unfold_app. cbn [state] in *. rewrite Hh. cbn. eauto.
Qed.

Ltac history_blocks :=
  idtac;
  lazymatch goal with
  | |- steps _ (get_state ≫= fun s => when (negb (is_some (quizzes s))) _ ≫= _) =>
      apply init_history_grows; intros ?
  | |- steps _ (read "quizzes" quizzes ≫= _) => apply append_history_grows
  end.

Lemma tab1_history_grows u cd : steps history_grows (tab1 u cd).
Proof. unfold tab1. step_through; by apply other_field_history_grows. Qed.

Lemma tab2_history_grows u cd : steps history_grows (tab2 u cd).
Proof.
  unfold tab2, tab2_generate, tab2_submit, tab2_results, pre_display_question,
    pre_show_result.
  step_through_with history_blocks; by apply other_field_history_grows.
Qed.

Lemma tab3_history_grows u cd : steps history_grows (tab3 u cd).
Proof. unfold tab3. step_through; by apply other_field_history_grows. Qed.

Lemma tab4_history_grows u : steps history_grows (tab4 u).
Proof.
  unfold tab4, tab4_generate, tab4_submit, tab4_results, post_display_question,
    post_show_result.
  step_through; by apply other_field_history_grows.
Qed.

(** No run of the script removes or changes an entry of the history. *)
Lemma history_append_only (u : ui) (s : session) (h : list score_result) :
  quizzes s = Some h -> exists h', quizzes (rerun u s) = Some (h ++ h')%list.
Proof.
  assert (Hmain : steps history_grows (main u)).
  { unfold main.
    step_through_with
      ltac:(idtac; first [ history_blocks
                  | lazymatch goal with
                    | |- steps _ (tab1 _ _) => apply tab1_history_grows
                    | |- steps _ (tab2 _ _) => apply tab2_history_grows
                    | |- steps _ (tab3 _ _) => apply tab3_history_grows
                    | |- steps _ (tab4 _) => apply tab4_history_grows
                    end ]);
      by apply other_field_history_grows. }
  exact (Hmain {| state := s; shown := [] |} h).
Qed.

Lemma pre_show_results_same (quiz : list pyval) (idx : nat) :
  steps eq (for_enumerate idx quiz pre_show_result).
Proof. unfold pre_show_result. step_through. Qed.

(** Whenever the results block runs to its end on a submitted quiz, it
    appends the stored score to the history once more. *)
Lemma results_append (r : run) (h : list score_result) (score : Z) (quiz : list pyval) :
  quiz_submitted (state r) = Some true ->
  last_quiz_score (state r) = Some score ->
  current_quiz (state r) = Some quiz ->
  quizzes (state r) = Some h ->
  snd (tab2_results r) = Ok tt ->
  quizzes (state (fst (tab2_results r))) =
    Some (h ++ [{| sr_date := date_today; sr_score := score;
                   sr_total := Z.of_nat (length quiz) |}])%list.
Proof.
  intros Hflag Hscore Hquiz Hhist. destruct r as [s out]. cbn [state] in *.
  unfold tab2_results. unfold_app. cbn. rewrite Hflag. cbn.
  rewrite Hscore. cbn. rewrite Hquiz. cbn.
  match goal with
  | |- context [for_enumerate 0 quiz pre_show_result ?r0] =>
      pose proof (pre_show_results_same quiz 0 r0) as Hsame;
      destruct (for_enumerate 0 quiz pre_show_result r0) as [r' [[] | e]]
  end; cbn in Hsame |- *; [| discriminate].
  subst s. rewrite Hhist. cbn. rewrite Hhist. cbn. done.
Qed.
(** *** Generating and submitting *)

Lemma generate_resets (u : ui) (course_data : pyval) (r : run) (questions : list pyval) :
  generate_quiz u = true ->
  Text.strip (py_str course_data ++ additional_topics u) <> "" ->
  snd (fetch_questions (py_str course_data ++ additional_topics u)
         (level_str (quiz_level u)) r) = Ok questions ->
  questions <> [] ->
  current_quiz (state (fst (tab2_generate u course_data r))) = Some questions /\
  selected_answers (state (fst (tab2_generate u course_data r))) = Some ∅ /\
  quiz_submitted (state (fst (tab2_generate u course_data r))) = Some false.
Proof.
  intros Hgen Htext Hfetch Hne. unfold tab2_generate. rewrite Hgen. cbn [when].
  destruct (String.eqb_spec (Text.strip (py_str course_data ++ additional_topics u)) "");
    [contradiction |]. cbn [negb].
  unfold_app.
  destruct (fetch_questions _ _ r) as [r1 result]. cbn [snd] in Hfetch. subst result.
  destruct questions; [contradiction |]. cbn. done.
Qed.

Lemma submit_scores (u : ui) (r : run) (quiz : list pyval) (answers : gmap nat pyval)
    (score : Z) :
  submit_answers u = true ->
  quiz_submitted (state r) = Some false ->
  current_quiz (state r) = Some quiz ->
  selected_answers (state r) = Some answers ->
  pre_score quiz answers = Ok score ->
  quiz_submitted (state (fst (tab2_submit u r))) = Some true /\
  last_quiz_score (state (fst (tab2_submit u r))) = Some score.
Proof.
  intros Hclick Hflag Hquiz Hanswers Hscore. destruct r as [s out]. cbn [state] in *.
  unfold tab2_submit. unfold_app. cbn [state]. rewrite Hflag, Hclick. cbn.
  rewrite Hquiz. cbn. rewrite Hanswers. cbn. rewrite Hscore. cbn. done.
Qed.

End Script.

Lemma submitted_quiz_not_rescored_witness :
  quiz_submitted
    (@rerun (Scripted.replying VNone) (Scripted.widgets Scripted.SubmitAnswers (Some 1%nat))
       Scripted.submitted) = Some true /\
  last_quiz_score
    (@rerun (Scripted.replying VNone) (Scripted.widgets Scripted.SubmitAnswers (Some 1%nat))
       Scripted.submitted) = last_quiz_score Scripted.submitted /\
  current_quiz
    (@rerun (Scripted.replying VNone) (Scripted.widgets Scripted.SubmitAnswers (Some 1%nat))
       Scripted.submitted) = current_quiz Scripted.submitted.
Proof.
  apply (@submitted_quiz_not_rescored (Scripted.replying VNone)
           (Scripted.widgets Scripted.SubmitAnswers (Some 1%nat))).
  - vm_compute. reflexivity.
  - reflexivity.
Defined.

(** C5 fails through the defect of C9.  On a submitted one-question quiz a
    run with the submit action set once more keeps the flag, the score, the
    quiz and the answers, so the guard does what the claim says of the
    score; but the run appends the result to the history a second time, so
    the session is not the one it was: the two sessions differ in the
    [quizzes] key, and in that key only. *)
Theorem second_submit_repeats_history :
  quiz_submitted Scripted.submitted = Some true /\
  quiz_submitted Scenes.submitted_again = Some true /\
  last_quiz_score Scenes.submitted_again = last_quiz_score Scripted.submitted /\
  quizzes Scripted.submitted = Some [Scripted.first_result] /\
  quizzes Scenes.submitted_again = Some [Scripted.first_result; Scripted.first_result] /\
  set_quizzes [Scripted.first_result] Scenes.submitted_again = Scripted.submitted /\
  Scenes.submitted_again <> Scripted.submitted.
Proof.
  repeat (split; [vm_compute; reflexivity |]).
  intros Hsame. apply (f_equal quizzes) in Hsame. vm_compute in Hsame. discriminate Hsame.
Qed.

(** C9 fails: the result of the one pre-learning submission is appended
    again by every later run of the script (a second time when the page is
    looked at again, a third time when the roadmap is made), and the
    submission of the post-learning quiz appends nothing. *)
Theorem history_repeats_submission :
  quizzes Scripted.generated = Some [] /\
  quizzes Scripted.submitted = Some [Scripted.first_result] /\
  quizzes Scripted.revisited = Some [Scripted.first_result; Scripted.first_result] /\
  quizzes Scripted.planned =
    Some [Scripted.first_result; Scripted.first_result; Scripted.first_result] /\
  post_quiz_submitted Scripted.post_generated = Some false /\
  post_quiz_submitted Scripted.post_submitted = Some true /\
  last_post_quiz_score Scripted.post_submitted = Some 1 /\
  quizzes Scripted.post_submitted = quizzes Scripted.post_generated.
Proof. repeat split; vm_compute; reflexivity. Qed.

(** * Further properties *)

Import Scripted Scenes.

(** ** Generators: what they return and what they show *)

Lemma comprehension_filters (cond : pyval -> res bool) (xs ys : list pyval) :
  comprehension cond xs = Ok ys -> ys = List.filter (condition_true cond) xs.
Proof.
  revert ys. induction xs as [| x xs IH]; intros ys; cbn [comprehension List.filter].
  - by intros [= <-].
  - unfold condition_true at 1.
    destruct (cond x) as [b |]; cbn [mbind res_bind]; [| discriminate].
    destruct (comprehension cond xs) as [rest |]; cbn [mbind res_bind]; [| discriminate].
    intros [= <-]. rewrite (IH rest eq_refl). by destruct b.
Qed.

Lemma comprehension_evaluates (cond : pyval -> res bool) (xs : list pyval) :
  Forall (fun x => exists b, cond x = Ok b) xs ->
  comprehension cond xs = Ok (List.filter (condition_true cond) xs).
Proof.
  induction 1 as [| x xs [b Hb] _ IH]; [reflexivity |].
  cbn [comprehension List.filter]. unfold condition_true at 1.
  rewrite Hb, IH. by destruct b.
Qed.

Lemma comprehension_none (cond : pyval -> res bool) (xs : list pyval) :
  Forall (fun x => cond x = Ok false) xs -> comprehension cond xs = Ok [].
Proof.
  induction 1 as [| x xs Hx _ IH]; [reflexivity |].
  cbn [comprehension]. by rewrite Hx, IH.
Qed.

(** The pre-learning condition raises on one shape only: a dict with a
    string [mcq], a dict [options] and a [correct] that is a list or a
    dict. *)
Lemma pre_condition_raises (question : pyval) (e : exn) :
  pre_condition question = Raise e ->
  exists correct, item question "correct" = Ok correct /\ hashable correct = false.
Proof.
  unfold pre_condition. destruct question as [| | | | | | d]; try discriminate.
  cbn [isinstance_dict and_then]. rewrite !has_key_dict, !item_dict.
  destruct (dict_get d "mcq") as [m |]; [| discriminate].
  cbn [and_then mbind res_bind mret res_ret].
  destruct m; try discriminate. cbn [isinstance_str and_then].
  destruct (dict_get d "options") as [o |]; [| discriminate].
  cbn [and_then mbind res_bind mret res_ret].
  destruct o as [| | | | | | options]; try discriminate. cbn [isinstance_dict and_then].
  destruct (dict_get d "correct") as [c |]; [| discriminate]. cbn [and_then mbind res_bind].
  unfold py_in. destruct (hashable c) eqn:Hc; [discriminate |]. eauto.
Qed.

Lemma pre_condition_evaluates (items : list pyval) :
  Forall (fun q => forall c, item q "correct" = Ok c -> hashable c = true) items ->
  Forall (fun q => exists b, pre_condition q = Ok b) items.
Proof.
  intros Hall. eapply Forall_impl; [exact Hall |]. intros q Hq. cbn beta in Hq.
  destruct (pre_condition q) as [b | e] eqn:Hc; [eauto |].
  apply pre_condition_raises in Hc as (c & Hc & Hh). rewrite (Hq c Hc) in Hh. discriminate.
Qed.

Lemma pre_condition_not_dict (x : pyval) : isinstance_dict x = false -> pre_condition x = Ok false.
Proof. intros Hx. unfold pre_condition. by rewrite Hx. Qed.

Section GeneratorsMore.
Context `{E : Env}.

(** X1: neither generator lets an exception out or touches the session,
    whatever the completion service and the JSON parser do: both return a
    list, and show either nothing or, with an empty list, one message. *)
Theorem generators_answer_quietly (a b : string) (r : run) :
  (exists msgs qs,
      fetch_questions a b r = ({| state := state r; shown := shown r ++ msgs |}, Ok qs) /\
      (msgs = [] \/ (qs = [] /\ exists m, msgs = [m]))) /\
  (exists msgs qs,
      generate_post_learning_quiz a b r
        = ({| state := state r; shown := shown r ++ msgs |}, Ok qs) /\
      (msgs = [] \/ (qs = [] /\ exists m, msgs = [m]))).
Proof.
  destruct r as [s out]. split.
  - unfold fetch_questions. unfold_app.
    destruct (ChatCompletion_create _) as [response_text | e];
      [| cbn; eexists [_], []; eauto].
    destruct (json_loads response_text) as [questions | e];
      [| cbn; destruct (is_JSONDecodeError e); cbn; eexists [_], []; eauto].
    destruct (py_iter questions) as [items | e];
      [| cbn; destruct (is_JSONDecodeError e); cbn; eexists [_], []; eauto].
    destruct (comprehension pre_condition items) as [valid | e];
      [| cbn; destruct (is_JSONDecodeError e); cbn; eexists [_], []; eauto].
    destruct valid as [| q valid]; cbn.
    + eexists [_], []. eauto.
    + exists [], (q :: valid). rewrite app_nil_r. eauto.
  - unfold generate_post_learning_quiz. unfold_app.
    destruct (ChatCompletion_create _) as [response_text | e];
      [| cbn; eexists [_], []; eauto].
    destruct (json_loads response_text) as [questions | e];
      [| cbn; destruct (is_JSONDecodeError e); cbn; eexists [_], []; eauto].
    destruct (py_iter questions) as [items | e];
      [| cbn; destruct (is_JSONDecodeError e); cbn; eexists [_], []; eauto].
    destruct (comprehension post_condition items) as [valid | e];
      [| cbn; destruct (is_JSONDecodeError e); cbn; eexists [_], []; eauto].
    cbn. exists [], valid. rewrite app_nil_r. eauto.
Qed.

(** X2: the two handlers of each generator.  When the completion call
    raises, the generator returns the empty list and shows the error under
    its own heading ("Error generating quiz: " or "Error generating
    post-learning quiz: "); when the reply is not JSON, it returns the empty
    list and shows the error under "Error parsing JSON from OpenAI: ". *)
Theorem generator_failures (a b : string) (r : run) :
  (forall e,
      ChatCompletion_create (quiz_request (pre_prompt a b)) = Raise e ->
      fetch_questions a b r
      = ({| state := state r;
            shown := shown r ++ [StError ("Error generating quiz: " ++ exn_str e)] |}, Ok [])) /\
  (forall response_text msg,
      ChatCompletion_create (quiz_request (pre_prompt a b)) = Ok response_text ->
      json_loads response_text = Raise (JSONDecodeError msg) ->
      fetch_questions a b r
      = ({| state := state r;
            shown := shown r ++ [StError ("Error parsing JSON from OpenAI: "
                                          ++ exn_str (JSONDecodeError msg))] |}, Ok [])) /\
  (forall e,
      ChatCompletion_create (quiz_request (post_prompt a b)) = Raise e ->
      generate_post_learning_quiz a b r
      = ({| state := state r;
            shown := shown r ++ [StError ("Error generating post-learning quiz: "
                                          ++ exn_str e)] |}, Ok [])) /\
  (forall response_text msg,
      ChatCompletion_create (quiz_request (post_prompt a b)) = Ok response_text ->
      json_loads response_text = Raise (JSONDecodeError msg) ->
      generate_post_learning_quiz a b r
      = ({| state := state r;
            shown := shown r ++ [StError ("Error parsing JSON from OpenAI: "
                                          ++ exn_str (JSONDecodeError msg))] |}, Ok [])).
Proof.
  destruct r as [s out]. split; [| split; [| split]].
  - intros e He. unfold fetch_questions. unfold_app. by rewrite He.
  - intros response_text msg Hc Hj. unfold fetch_questions. unfold_app. by rewrite Hc, Hj.
  - intros e He. unfold generate_post_learning_quiz. unfold_app. by rewrite He.
  - intros response_text msg Hc Hj. unfold generate_post_learning_quiz. unfold_app.
    by rewrite Hc, Hj.
Qed.

(** X3: when the reply parses to something iterable and no entry has a
    list or a dict as its [correct] value, [fetch_questions] returns exactly
    the entries on which the condition of lines 84-94 holds, in their order;
    it shows the warning of line 97 if and only if none is left, and every
    entry returned is a dict with a string [mcq], a dict [options] and a
    [correct] that is a key of [options]. *)
Theorem fetch_questions_keeps_exactly (a b response_text : string) (questions : pyval)
    (items : list pyval) (r : run) :
  ChatCompletion_create (quiz_request (pre_prompt a b)) = Ok response_text ->
  json_loads response_text = Ok questions ->
  py_iter questions = Ok items ->
  Forall (fun q => forall c, item q "correct" = Ok c -> hashable c = true) items ->
  fetch_questions a b r
  = ({| state := state r;
        shown := shown r ++
                 (if is_empty (List.filter (condition_true pre_condition) items)
                  then [no_questions_warning] else []) |},
     Ok (List.filter (condition_true pre_condition) items)) /\
  Forall valid_mcq (List.filter (condition_true pre_condition) items).
Proof.
  intros Hc Hj Hi Hh. destruct r as [s out].
  pose proof (comprehension_evaluates pre_condition items (pre_condition_evaluates items Hh))
    as Hcomp.
  split.
  - unfold fetch_questions. unfold_app. rewrite Hc, Hj, Hi, Hcomp.
    destruct (List.filter _ items); cbn; [reflexivity | by rewrite app_nil_r].
  - apply comprehension_retains in Hcomp as [_ Hall].
    eapply Forall_impl; [exact Hall |]. intros q Hq. by apply pre_condition_valid in Hq as [? _].
Qed.

(** X4: a reply that is JSON but no list.  A dict or a string is iterated
    (over its keys, over its characters): the pre-learning generator finds
    no dict among them, returns the empty list and shows the warning of
    line 97, while the post-learning generator, on a dict that is not
    empty, raises at [q["type"]] on the first key and shows an error.  On
    [null], a boolean or a number the iteration itself raises, and both
    generators show the error under their own heading. *)
Theorem reply_that_is_no_list (a b response_text : string) (questions : pyval) (r : run) :
  ChatCompletion_create (quiz_request (pre_prompt a b)) = Ok response_text ->
  ChatCompletion_create (quiz_request (post_prompt a b)) = Ok response_text ->
  json_loads response_text = Ok questions ->
  (isinstance_dict questions || isinstance_str questions = true ->
   fetch_questions a b r
   = ({| state := state r; shown := shown r ++ [no_questions_warning] |}, Ok [])) /\
  (forall d, questions = VDict d -> d <> [] ->
   exists e,
     generate_post_learning_quiz a b r
     = ({| state := state r;
           shown := shown r ++ [StError ("Error generating post-learning quiz: "
                                         ++ exn_str e)] |}, Ok [])) /\
  (match questions with VNone | VBool _ | VInt _ | VFloat _ => True | _ => False end ->
   exists e,
     fetch_questions a b r
     = ({| state := state r;
           shown := shown r ++ [StError ("Error generating quiz: " ++ exn_str e)] |}, Ok []) /\
     generate_post_learning_quiz a b r
     = ({| state := state r;
           shown := shown r ++ [StError ("Error generating post-learning quiz: "
                                         ++ exn_str e)] |}, Ok [])).
Proof.
  intros Hpre Hpost Hj. destruct r as [s out]. split; [| split].
  - intros Hshape.
    assert (exists items, py_iter questions = Ok items /\
                          Forall (fun x => isinstance_dict x = false) items) as (items & Hi & Hall).
    { destruct questions as [| | | | str | | d]; try discriminate.
      - eexists. split; [reflexivity |]. unfold chars. apply Forall_forall.
        intros x Hx. apply list_elem_of_fmap in Hx as (c & -> & _). reflexivity.
      - eexists. split; [reflexivity |]. apply Forall_forall.
        intros x Hx. apply list_elem_of_fmap in Hx as (c & -> & _). reflexivity. }
    unfold fetch_questions. unfold_app. rewrite Hpre, Hj, Hi.
    rewrite (comprehension_none pre_condition items); [reflexivity |].
    eapply Forall_impl; [exact Hall |]. apply pre_condition_not_dict.
  - intros d -> Hd. destruct d as [| [k v] d]; [contradiction |].
    eexists. unfold generate_post_learning_quiz. unfold_app. rewrite Hpost, Hj.
    cbn. reflexivity.
  - intros Hshape. destruct questions; try contradiction;
      (eexists; split;
       [ unfold fetch_questions; unfold_app; rewrite Hpre, Hj; cbn; reflexivity
       | unfold generate_post_learning_quiz; unfold_app; rewrite Hpost, Hj; cbn; reflexivity ]).
Qed.

End GeneratorsMore.

Lemma generator_failures_witness :
  @fetch_questions failing_service "topics" "Easy" blank
  = ({| state := new_session; shown := [StError "Error generating quiz: error"] |}, Ok []) /\
  @generate_post_learning_quiz garbled_reply "plan" "Easy" blank
  = ({| state := new_session;
        shown := [StError "Error parsing JSON from OpenAI: error"] |}, Ok []).
Proof.
  split.
  - apply (proj1 (@generator_failures failing_service "topics" "Easy" blank)
             (OtherError "rate limit")).
    reflexivity.
  - apply (proj2 (proj2 (proj2 (@generator_failures garbled_reply "plan" "Easy" blank)))
             "no json" "Expecting value"); reflexivity.
Defined.

Lemma fetch_questions_keeps_exactly_witness :
  @fetch_questions (replying (VList [untyped_entry; pre_mcq])) "topics" "Easy" blank
  = (blank, Ok [pre_mcq]).
Proof.
  refine (proj1 (@fetch_questions_keeps_exactly (replying (VList [untyped_entry; pre_mcq]))
                   "topics" "Easy" "reply" (VList [untyped_entry; pre_mcq])
                   [untyped_entry; pre_mcq] blank eq_refl eq_refl eq_refl _)).
  repeat constructor; intros c Hc; vm_compute in Hc; try discriminate.
  by injection Hc as <-.
Defined.

Lemma reply_that_is_no_list_witness :
  @fetch_questions (replying (VDict [("questions", VList [pre_mcq])])) "topics" "Easy" blank
  = ({| state := new_session; shown := [no_questions_warning] |}, Ok []).
Proof.
  apply (proj1 (@reply_that_is_no_list (replying (VDict [("questions", VList [pre_mcq])]))
                  "topics" "Easy" "reply" (VDict [("questions", VList [pre_mcq])]) blank
                  eq_refl eq_refl eq_refl)).
  reflexivity.
Defined.

(** ** Performance level, further *)

Lemma int_le_antitone (n n' : Z) (f : Float64.float) :
  n <= n' -> Float64.int_le n' f = true -> Float64.int_le n f = true.
Proof.
  unfold Float64.int_le. intros Hn.
  destruct (0 <=? Float64.expo f); rewrite !Z.leb_le; intros H; [lia |].
  assert (0 <= 2 ^ (- Float64.expo f)) by (apply Z.pow_nonneg; lia). nia.
Qed.

(** X5: the level is monotone in the score.  For any total, positive or
    not, a higher score never gives a lower level in the order Beginner,
    Intermediate, Advanced. *)
Theorem performance_level_monotone (s s' t : Z) :
  s <= s' ->
  (level_rank (performance_level s t) <= level_rank (performance_level s' t))%nat.
Proof.
  intros Hs. unfold performance_level.
  set (half := Float64.mul (Float64.of_int t) Float64.lit_0_5).
  set (most := Float64.mul (Float64.of_int t) Float64.lit_0_8).
  pose proof (int_le_antitone s s' half Hs) as Hhalf.
  pose proof (int_le_antitone s s' most Hs) as Hmost.
  destruct (Float64.int_le s' half), (Float64.int_le s half),
    (Float64.int_le s' most), (Float64.int_le s most);
    try (specialize (Hhalf eq_refl)); try (specialize (Hmost eq_refl));
    try discriminate; cbn; lia.
Qed.

Lemma performance_level_monotone_witness :
  (level_rank (performance_level 3 7) <= level_rank (performance_level 6 7))%nat.
Proof. apply performance_level_monotone. lia. Defined.

(** ** White space *)

Module StripFacts.
Import Text.

Lemma rstrip_ink (s : string) : has_ink s = true -> rstrip s <> "".
Proof.
  induction s as [| c s IH]; [discriminate |].
  cbn [has_ink rstrip]. intros H.
  destruct (rstrip s) eqn:Hr.
  - destruct (isspace_char c) eqn:Hc; [| discriminate].
    cbn in H. by specialize (IH H).
  - discriminate.
Qed.

Lemma lstrip_ink (s : string) : has_ink s = true -> has_ink (lstrip s) = true.
Proof.
  induction s as [| c s IH]; [discriminate |].
  cbn [has_ink lstrip]. destruct (isspace_char c) eqn:Hc; cbn [negb orb].
  - exact IH.
  - intros _. cbn [has_ink]. by rewrite Hc.
Qed.

Lemma has_ink_app_l (a b : string) : has_ink a = true -> has_ink (a ++ b) = true.
Proof.
  induction a as [| c a IH]; [discriminate |].
  rewrite TextFacts.append_cons. cbn [has_ink].
  destruct (negb (isspace_char c)); [reflexivity | exact IH].
Qed.

Lemma strip_ink (s : string) : has_ink s = true -> strip s <> "".
Proof. intros H. unfold strip. by apply rstrip_ink, lstrip_ink. Qed.

End StripFacts.

(** ** The Home tab (lines 177-187) *)

Section Home.
Context `{E : Env}.

(** Lines 160-171: the banner is shown and the two keys are set. *)
Lemma main_start (u : ui) (r : run) :
  main u r =
    (tab1 u (VDict []) ≫= fun course_data =>
       tab2 u course_data;; tab3 u course_data;; tab4 u)
      {| state := initialised (state r); shown := shown r ++ banner |}.
Proof.
  destruct r as [s out]. unfold main, initialised, banner.
  cbn [state shown].
  unfold mbind at 1 2 3 4 5 6 7 8. unfold app_bind at 1 2 3 4 5 6 7 8.
  unfold show, get_state, when, update. cbn [state shown].
  rewrite <- !app_assoc. cbn [app].
  destruct (course_topics s); cbn; destruct (quizzes s); cbn; reflexivity.
Qed.

Lemma tab1_transport_failure (u : ui) (course_data : pyval) (r : run) (e : exn) :
  course_url u <> "" ->
  requests_get (course_url u) user_agent = Raise e ->
  tab1 u course_data r
  = ({| state := state r; shown := shown r ++ [StSubheader "Input Course URL"] |}, Raise e).
Proof.
  destruct r as [s out]. intros Hurl Hget. unfold tab1, scrape_course. unfold_app.
  destruct (String.eqb_spec (course_url u) ""); [contradiction |]. cbn [negb].
  fold user_agent. rewrite Hget. reflexivity.
Qed.

(** X6: the Home tab when no content comes back.  With an empty URL it
    shows its heading only; with a page whose status is not 200 it shows
    "Failed to fetch content"; in both cases the session is untouched and
    the course data stay what they were (the empty dict of line 158).  When
    the request itself raises, the tab raises the same exception: [main]
    has no handler around [scrape_course]. *)
Theorem home_tab_without_content (u : ui) (course_data : pyval) (r : run) :
  (course_url u = "" ->
   tab1 u course_data r
   = ({| state := state r; shown := shown r ++ [StSubheader "Input Course URL"] |},
      Ok course_data)) /\
  (forall page,
      course_url u <> "" ->
      requests_get (course_url u) user_agent = Ok page ->
      status_code page <> 200 ->
      tab1 u course_data r
      = ({| state := state r;
            shown := shown r ++ [StSubheader "Input Course URL";
                                 StError "Failed to fetch content"] |},
         Ok course_data)) /\
  (forall e,
      course_url u <> "" ->
      requests_get (course_url u) user_agent = Raise e ->
      tab1 u course_data r
      = ({| state := state r; shown := shown r ++ [StSubheader "Input Course URL"] |},
         Raise e)).
Proof.
  split; [| split].
  - destruct r as [s out]. intros Hurl. unfold tab1. unfold_app. rewrite Hurl. reflexivity.
  - destruct r as [s out]. intros page Hurl Hget Hstatus. unfold tab1, scrape_course.
    unfold_app.
    destruct (String.eqb_spec (course_url u) ""); [contradiction |]. cbn [negb].
    fold user_agent. rewrite Hget.
    destruct (Z.eqb_spec (status_code page) 200); [contradiction |]. cbn.
    by rewrite <- app_assoc.
  - intros e. apply tab1_transport_failure.
Qed.

(** X7: a request that raises ends the whole run.  The script stops in the
    Home tab with that exception: the session holds the two keys of lines
    168-171 and is otherwise as before, and only the banner and the
    heading of the Home tab are shown, nothing of the other three tabs. *)
Theorem transport_failure_ends_run (u : ui) (r : run) (e : exn) :
  course_url u <> "" ->
  requests_get (course_url u) user_agent = Raise e ->
  main u r
  = ({| state := initialised (state r);
        shown := shown r ++ banner ++ [StSubheader "Input Course URL"] |}, Raise e).
Proof.
  intros Hurl Hget. rewrite main_start.
  unfold mbind at 1. unfold app_bind.
  rewrite (tab1_transport_failure u (VDict [])
             {| state := initialised (state r); shown := shown r ++ banner |} e Hurl Hget).
  cbn [state shown]. by rewrite <- app_assoc.
Qed.

(** X8: the Home tab on a page with status 200.  The scraper returns a
    dict with the two keys "What You'll Learn" and "Skills You'll Gain"; the
    tab shows it as JSON, hands it on as the course data, and stores the
    list under the first key as [course_topics]; every entry of the two
    lists is a string that [clean_text] returned. *)
Theorem home_tab_stores_topics (u : ui) (course_data : pyval) (r : run) (page : response) :
  course_url u <> "" ->
  requests_get (course_url u) user_agent = Ok page ->
  status_code page = 200 ->
  exists learn skills,
    let data := VDict [("What You'll Learn", VList learn); ("Skills You'll Gain", VList skills)] in
    scrape_course (course_url u) = Ok (Some data, None) /\
    tab1 u course_data r
    = ({| state := set_course_topics (VList learn) (state r);
          shown := shown r ++ [StSubheader "Input Course URL"; StJson data] |}, Ok data) /\
    Forall (fun v => exists t, v = VStr (clean_text t)) (learn ++ skills).
Proof.
  intros Hurl Hget Hstatus. destruct r as [s out].
  eexists _, _. cbn zeta. split; [| split].
  - unfold scrape_course. fold user_agent. rewrite Hget. cbn [mbind res_bind].
    rewrite Hstatus. cbn [Z.eqb negb Pos.eqb]. reflexivity.
  - unfold tab1, scrape_course. unfold_app.
    destruct (String.eqb_spec (course_url u) ""); [contradiction |]. cbn [negb].
    fold user_agent. rewrite Hget, Hstatus. cbn. by rewrite <- app_assoc.
  - apply Forall_app. split; apply Forall_forall; intros v Hv;
      apply list_elem_of_fmap in Hv as (t & -> & _); eauto.
Qed.

End Home.

Lemma home_tab_without_content_witness :
  @tab1 (site 404) visiting (VDict []) blank
  = ({| state := new_session;
        shown := [StSubheader "Input Course URL"; StError "Failed to fetch content"] |},
     Ok (VDict [])).
Proof.
  apply (proj1 (proj2 (@home_tab_without_content (site 404) visiting (VDict []) blank))
           {| status_code := 404; text := "" |}).
  - discriminate.
  - reflexivity.
  - cbn. lia.
Defined.

Lemma transport_failure_ends_run_witness :
  @main (replying VNone) visiting blank
  = ({| state := initialised new_session;
        shown := banner ++ [StSubheader "Input Course URL"] |},
     Raise (OtherError "no network")).
Proof.
  apply (@transport_failure_ends_run (replying VNone) visiting blank
           (OtherError "no network")).
  - discriminate.
  - reflexivity.
Defined.

Lemma home_tab_stores_topics_witness :
  exists learn skills,
    let data := VDict [("What You'll Learn", VList learn); ("Skills You'll Gain", VList skills)] in
    @scrape_course course_site (course_url visiting) = Ok (Some data, None) /\
    @tab1 course_site visiting (VDict []) blank
    = ({| state := set_course_topics (VList learn) new_session;
          shown := [StSubheader "Input Course URL"; StJson data] |}, Ok data) /\
    Forall (fun v => exists t, v = VStr (@clean_text course_site t)) (learn ++ skills).
Proof.
  apply (@home_tab_stores_topics course_site visiting (VDict []) blank
           {| status_code := 200; text := "" |}).
  - discriminate.
  - reflexivity.
  - reflexivity.
Defined.

(** ** The Roadmap tab and the post-learning quiz (lines 273-391) *)

#[local] Instance post_submitted_stays_preorder : PreOrder post_submitted_stays.
Proof.
  split.
  - by intros s Hs.
  - intros s1 s2 s3 H12 H23 H1. destruct (H12 H1) as (H2 & Hs & Hq).
    destruct (H23 H2) as (H3 & Hs' & Hq'). repeat split; congruence.
Qed.

Section Tabs.
Context `{E : Env}.

(** X9: the Roadmap tab.  Without a score or without topics in the
    session it shows the locked warning and does nothing else.  With both,
    a stored quiz and the button pressed, it asks for a roadmap at the
    level of the last score over the length of the current quiz: a reply is
    stored as [roadmap]; a failure is caught, shown as "Error generating
    roadmap: ..." and leaves the session as it was. *)
Theorem roadmap_tab (u : ui) (course_data : pyval) (r : run) :
  (last_quiz_score (state r) = None \/ course_topics (state r) = None ->
   tab3 u course_data r
   = ({| state := state r;
         shown := shown r ++ [StSubheader "Personalized Learning Roadmap";
                              roadmap_locked_warning] |}, Ok tt)) /\
  (forall score topics quiz,
      last_quiz_score (state r) = Some score ->
      course_topics (state r) = Some topics ->
      current_quiz (state r) = Some quiz ->
      generate_roadmap u = true ->
      let level := performance_level score (Z.of_nat (length quiz)) in
      let request := roadmap_request (roadmap_prompt course_data level (duration u)) in
      (forall text, ChatCompletion_create request = Ok text ->
         state (fst (tab3 u course_data r)) = set_roadmap text (state r) /\
         snd (tab3 u course_data r) = Ok tt) /\
      (forall e, ChatCompletion_create request = Raise e ->
         state (fst (tab3 u course_data r)) = state r /\
         snd (tab3 u course_data r) = Ok tt /\
         last (shown (fst (tab3 u course_data r)))
         = Some (StError ("Error generating roadmap: " ++ exn_str e)))).
Proof.
  destruct r as [s out]. cbn [state shown]. split.
  - intros Hlocked. unfold tab3. unfold_app. cbn [state shown].
    assert (is_some (last_quiz_score s) && is_some (course_topics s) = false) as ->.
    { destruct Hlocked as [-> | ->]; [reflexivity | by destruct (last_quiz_score s)]. }
    cbn. by rewrite <- app_assoc.
  - intros score topics quiz Hscore Htopics Hquiz Hclick. split.
    + intros text Hreply. unfold tab3. unfold_app. cbn [state shown].
      rewrite Hscore, Htopics. cbn. rewrite Hscore. cbn. rewrite Hquiz. cbn.
      rewrite Hclick, Hreply. cbn. done.
    + intros e Hreply. unfold tab3. unfold_app. cbn [state shown].
      rewrite Hscore, Htopics. cbn. rewrite Hscore. cbn. rewrite Hquiz. cbn.
      rewrite Hclick, Hreply. cbn.
      split; [done |]. split; [done |]. by rewrite last_snoc.
Qed.

Lemma tab4_submit_post_submitted_stays u : steps post_submitted_stays (tab4_submit u).
Proof.
  unfold tab4_submit. apply steps_inspect. intros r Hsub.
  rewrite Hsub. cbn. done.
Qed.

Lemma tab1_post_submitted_stays u cd : steps post_submitted_stays (tab1 u cd).
Proof. unfold tab1. step_through; by intros ?. Qed.

Lemma tab2_post_submitted_stays u cd : steps post_submitted_stays (tab2 u cd).
Proof.
  unfold tab2, tab2_generate, tab2_submit, tab2_results, pre_display_question,
    pre_show_result.
  step_through; by intros ?.
Qed.

Lemma tab3_post_submitted_stays u cd : steps post_submitted_stays (tab3 u cd).
Proof. unfold tab3. step_through; by intros ?. Qed.

Lemma tab4_post_submitted_stays u :
  generate_post_quiz u = false -> steps post_submitted_stays (tab4 u).
Proof.
  intros Hgen. unfold tab4, tab4_generate, tab4_results, post_display_question,
    post_show_result. rewrite Hgen.
  step_through_with
    ltac:(idtac; lazymatch goal with
          | |- steps _ (tab4_submit _) => apply tab4_submit_post_submitted_stays
          end);
    by intros ?.
Qed.

(** X10: the guard of line 381.  Once the post-learning quiz is submitted,
    a run in which the user does not generate a new one leaves it
    submitted, with the same score and the same questions, whatever else is
    pressed (the submit button included) and whatever the services
    answer. *)
Theorem post_submission_guard (u : ui) (s : session) :
  post_quiz_submitted s = Some true ->
  generate_post_quiz u = false ->
  post_quiz_submitted (rerun u s) = Some true /\
  last_post_quiz_score (rerun u s) = last_post_quiz_score s /\
  post_quiz (rerun u s) = post_quiz s.
Proof.
  intros Hsub Hgen.
  assert (Hmain : steps post_submitted_stays (main u)).
  { unfold main.
    step_through_with
      ltac:(idtac; lazymatch goal with
            | |- steps _ (tab1 _ _) => apply tab1_post_submitted_stays
            | |- steps _ (tab2 _ _) => apply tab2_post_submitted_stays
            | |- steps _ (tab3 _ _) => apply tab3_post_submitted_stays
            | |- steps _ (tab4 _) => apply (tab4_post_submitted_stays _ Hgen)
            end);
      by intros ?. }
  exact (Hmain {| state := s; shown := [] |} Hsub).
Qed.

(** X11: generating the post-learning quiz (lines 344-360).  Without a
    roadmap, or with an empty one, the tab shows "Generate a roadmap first
    to create a post-learning quiz." and does nothing, button or not.  With
    a roadmap and the button pressed, a generator result that is not empty
    is stored with an empty answer record and the flag reset to [False]; an
    empty result leaves the session as it was and ends with "Failed to
    generate post-learning questions. Try again.". *)
Theorem post_quiz_generation (u : ui) (r : run) :
  (default "" (roadmap (state r)) = "" ->
   tab4_generate u r
   = ({| state := state r;
         shown := shown r ++
                  [StWarning "Generate a roadmap first to create a post-learning quiz."] |},
      Ok tt)) /\
  (forall plan questions,
      roadmap (state r) = Some plan -> plan <> "" ->
      generate_post_quiz u = true ->
      snd (generate_post_learning_quiz plan (level_str (post_learning_quiz_level u)) r)
      = Ok questions ->
      (questions <> [] ->
       state (fst (tab4_generate u r))
       = set_post_quiz_submitted false
           (set_post_quiz_answers ∅ (set_post_quiz questions (state r)))) /\
      (questions = [] ->
       state (fst (tab4_generate u r)) = state r /\
       last (shown (fst (tab4_generate u r)))
       = Some (StError "Failed to generate post-learning questions. Try again."))).
Proof.
  destruct r as [s out]. cbn [state shown]. split.
  - intros Hnone. unfold tab4_generate. unfold_app. cbn [state]. by rewrite Hnone.
  - intros plan questions Hplan Hne Hclick Hgen.
    destruct (generate_post_learning_quiz_returns plan
                (level_str (post_learning_quiz_level u)) {| state := s; shown := out |})
      as (out' & qs & Hrun).
    rewrite Hrun in Hgen. cbn [snd state] in Hgen, Hrun. inversion Hgen; subst qs.
    unfold tab4_generate. unfold_app. cbn [state]. rewrite Hplan. cbn.
    destruct (String.eqb_spec plan ""); [contradiction |].
    cbn. rewrite Hplan. cbn. rewrite Hclick. rewrite Hrun.
    split.
    + intros Hsome. destruct questions; [contradiction |]. reflexivity.
    + intros ->. cbn. split; [done |]. by rewrite last_snoc.
Qed.

End Tabs.

Lemma roadmap_tab_witness :
  state (fst (@tab3 planner (widgets GenerateRoadmap None) (VDict []) (start scored)))
  = with_plan.
Proof.
  apply (proj1 (proj2 (@roadmap_tab planner (widgets GenerateRoadmap None) (VDict [])
                         (start scored))
                  1 (VList []) [pre_mcq] eq_refl eq_refl eq_refl eq_refl)
           "Week 1: capitals").
  reflexivity.
Defined.

Lemma post_submission_guard_witness :
  post_quiz_submitted (@rerun (replying VNone) (widgets SubmitPostQuiz None) post_done)
  = Some true /\
  last_post_quiz_score (@rerun (replying VNone) (widgets SubmitPostQuiz None) post_done)
  = last_post_quiz_score post_done /\
  post_quiz (@rerun (replying VNone) (widgets SubmitPostQuiz None) post_done)
  = post_quiz post_done.
Proof.
  apply (@post_submission_guard (replying VNone) (widgets SubmitPostQuiz None) post_done);
    reflexivity.
Defined.

Lemma post_quiz_generation_witness :
  state (fst (@tab4_generate (replying (VList [post_true_false]))
                (widgets GeneratePostQuiz None) (start with_plan)))
  = set_post_quiz_submitted false
      (set_post_quiz_answers ∅ (set_post_quiz [post_true_false] with_plan)).
Proof.
  apply (proj1 (proj2 (@post_quiz_generation (replying (VList [post_true_false]))
                         (widgets GeneratePostQuiz None) (start with_plan))
                  "Week 1: capitals" [post_true_false] eq_refl ltac:(discriminate)
                  eq_refl eq_refl)).
  discriminate.
Defined.

(** ** What every session satisfies *)

#[local] Instance stays_coherent_preorder : PreOrder stays_coherent.
Proof. split; [intros s H; exact H | intros s1 s2 s3 H12 H23 H1; exact (H23 (H12 H1))]. Qed.

#[local] Instance stays_coherent_with_quiz_preorder : PreOrder stays_coherent_with_quiz.
Proof. split; [intros s H; exact H | intros s1 s2 s3 H12 H23 H1; exact (H23 (H12 H1))]. Qed.

#[local] Instance stays_coherent_with_post_quiz_preorder :
  PreOrder stays_coherent_with_post_quiz.
Proof. split; [intros s H; exact H | intros s1 s2 s3 H12 H23 H1; exact (H23 (H12 H1))]. Qed.

#[local] Instance keys_stay_preorder : PreOrder keys_stay.
Proof.
  split; [intros s; split; auto | intros s1 s2 s3 [A1 B1] [A2 B2]; split; auto].
Qed.

Section Coherence.
Context `{E : Env}.

Lemma fetch_questions_valid (a b : string) (r : run) (qs : list pyval) :
  snd (fetch_questions a b r) = Ok qs -> Forall (fun q => pre_condition q = Ok true) qs.
Proof.
  destruct r as [s out]. unfold fetch_questions. unfold_app.
  destruct (ChatCompletion_create _) as [response_text | e];
    [| cbn; intros [= <-]; constructor].
  destruct (json_loads response_text) as [questions | e];
    [| cbn; destruct (is_JSONDecodeError e); cbn; intros [= <-]; constructor].
  destruct (py_iter questions) as [items | e];
    [| cbn; destruct (is_JSONDecodeError e); cbn; intros [= <-]; constructor].
  destruct (comprehension pre_condition items) as [valid | e] eqn:Hc;
    [| cbn; destruct (is_JSONDecodeError e); cbn; intros [= <-]; constructor].
  apply comprehension_retains in Hc as [_ Hall].
  destruct (is_empty valid); cbn; by intros [= <-].
Qed.

Lemma generate_post_learning_quiz_valid (a b : string) (r : run) (qs : list pyval) :
  snd (generate_post_learning_quiz a b r) = Ok qs ->
  Forall (fun q => post_condition q = Ok true) qs.
Proof.
  destruct r as [s out]. unfold generate_post_learning_quiz. unfold_app.
  destruct (ChatCompletion_create _) as [response_text | e];
    [| cbn; intros [= <-]; constructor].
  destruct (json_loads response_text) as [questions | e];
    [| cbn; destruct (is_JSONDecodeError e); cbn; intros [= <-]; constructor].
  destruct (py_iter questions) as [items | e];
    [| cbn; destruct (is_JSONDecodeError e); cbn; intros [= <-]; constructor].
  destruct (comprehension post_condition items) as [valid | e] eqn:Hc;
    [| cbn; destruct (is_JSONDecodeError e); cbn; intros [= <-]; constructor].
  apply comprehension_retains in Hc as [_ Hall]. cbn. by intros [= <-].
Qed.

Lemma tab2_generate_coherent u cd : steps stays_coherent (tab2_generate u cd).
Proof.
  intros [s out]. unfold tab2_generate. cbn [state].
  destruct (generate_quiz u); [| by intros ?]. cbn [when].
  destruct (negb _); [| by intros ?].
  unfold mbind at 1. unfold app_bind.
  pose proof (fetch_questions_valid (py_str cd ++ additional_topics u)
                (level_str (quiz_level u)) {| state := s; shown := out |}) as Hvalid.
  destruct (fetch_questions_returns (py_str cd ++ additional_topics u)
              (level_str (quiz_level u)) {| state := s; shown := out |})
    as (out' & qs & Hrun).
  rewrite Hrun in Hvalid |- *. cbn [snd state] in Hvalid |- *.
  specialize (Hvalid qs eq_refl).
  destruct qs as [| q qs]; [by intros ? |].
  unfold_app. cbn.
  intros (_ & _ & _ & Hpost). split; [| split; [| split]].
  - intros quiz0 [= <-]. eauto.
  - eauto.
  - discriminate.
  - exact Hpost.
Qed.

Lemma tab4_generate_coherent u : steps stays_coherent (tab4_generate u).
Proof.
  intros [s out]. unfold tab4_generate. unfold_app. cbn [state].
  destruct (String.eqb (default "" (roadmap s)) ""); [cbn; intros Hsame; exact Hsame |].
  cbn. destruct (roadmap s) as [plan |]; [| cbn; intros Hsame; exact Hsame]. cbn.
  destruct (generate_post_quiz u); [| cbn; intros Hsame; exact Hsame].
  pose proof (generate_post_learning_quiz_valid plan
                (level_str (post_learning_quiz_level u)) {| state := s; shown := out |})
    as Hvalid.
  destruct (generate_post_learning_quiz_returns plan
              (level_str (post_learning_quiz_level u)) {| state := s; shown := out |})
    as (out' & qs & Hrun).
  rewrite Hrun in Hvalid |- *. cbn [snd state] in Hvalid |- *.
  specialize (Hvalid qs eq_refl).
  destruct qs as [| q qs]; [cbn; intros Hsame; exact Hsame |]. cbn.
  intros (Hq & Hf & Hs & _). split; [exact Hq |]. split; [exact Hf |]. split; [exact Hs |].
  split; [| split].
  - intros quiz0 [= <-]. eauto.
  - eauto.
  - discriminate.
Qed.

Lemma pre_score_returns (quiz : list pyval) (answers : gmap nat pyval) :
  Forall (fun q => pre_condition q = Ok true) quiz ->
  exists score, pre_score quiz answers = Ok score.
Proof.
  intros Hall. apply score_loop_returns.
  eapply Forall_impl; [exact Hall |]. apply pre_condition_correct_option.
Qed.

Lemma post_score_returns (quiz : list pyval) (answers : gmap nat pyval) :
  Forall (fun q => post_condition q = Ok true) quiz ->
  exists score, post_score quiz answers = Ok score.
Proof.
  intros Hall. apply score_loop_returns.
  eapply Forall_impl; [exact Hall |]. apply post_condition_correct_answer.
Qed.

Lemma tab2_submit_coherent u : steps stays_coherent_with_quiz (tab2_submit u).
Proof.
  intros [s out] [Hc [quiz Hquiz]]. cbn [state] in *.
  unfold tab2_submit. unfold_app. cbn [state].
  destruct (negb _ && submit_answers u); [| by eauto]. cbn.
  rewrite Hquiz. cbn.
  destruct Hc as (Hpre & Hflag & Hscore & Hpost).
  destruct (Hpre quiz Hquiz) as (Hvalid & [answers Hanswers] & _).
  rewrite Hanswers. cbn.
  destruct (pre_score_returns quiz answers Hvalid) as [score ->]. cbn.
  split; [| eauto].
  split; [| split; [| split]]; cbn; eauto.
  intros quiz0 Hq. rewrite Hquiz in Hq. injection Hq as <-. rewrite Hanswers. eauto.
Qed.

Lemma tab4_submit_coherent u : steps stays_coherent_with_post_quiz (tab4_submit u).
Proof.
  intros [s out] [Hc [quiz Hquiz]]. cbn [state] in *.
  unfold tab4_submit. unfold_app. cbn [state].
  destruct (negb _ && submit_post_quiz u); [| by eauto]. cbn.
  rewrite Hquiz. cbn.
  destruct Hc as (Hpre & Hflag & Hscore & Hpost & Hpflag & Hpscore).
  destruct (Hpost quiz Hquiz) as (Hvalid & [answers Hanswers] & _).
  rewrite Hanswers. cbn.
  destruct (post_score_returns quiz answers Hvalid) as [score ->]. cbn.
  split; [| eauto].
  split; [exact Hpre |]. split; [exact Hflag |]. split; [exact Hscore |].
  split; [| split]; cbn; eauto.
  intros quiz0 Hq. rewrite Hquiz in Hq. injection Hq as <-. rewrite Hanswers. eauto.
Qed.

Lemma insert_answer_coherent (idx : nat) (v : pyval) (a : gmap nat pyval) (s : session) :
  stays_coherent_with_quiz s (set_selected_answers (<[idx := v]> a) s).
Proof.
  intros [(Hpre & Hrest) Hquiz]. split; [| exact Hquiz].
  split; [| exact Hrest].
  intros quiz Hq. destruct (Hpre quiz Hq) as (Hvalid & _ & Hflag).
  split; [exact Hvalid |]. split; [| exact Hflag]. cbn. eauto.
Qed.

Lemma insert_post_answer_coherent (idx : nat) (v : pyval) (a : gmap nat pyval) (s : session) :
  stays_coherent_with_post_quiz s (set_post_quiz_answers (<[idx := v]> a) s).
Proof.
  intros [(Hpre & Hflag & Hscore & Hpost & Hrest) Hquiz]. split; [| exact Hquiz].
  split; [exact Hpre |]. split; [exact Hflag |]. split; [exact Hscore |].
  split; [| exact Hrest].
  intros quiz Hq. destruct (Hpost quiz Hq) as (Hvalid & _ & Hpflag).
  split; [exact Hvalid |]. split; [| exact Hpflag]. cbn. eauto.
Qed.

Lemma with_quiz_block (body : app unit) :
  steps stays_coherent_with_quiz body ->
  steps stays_coherent
    (get_state ≫= fun s => when (negb (is_empty (default [] (current_quiz s)))) body).
Proof.
  intros Hbody. apply steps_inspect. intros r Hc.
  destruct (current_quiz (state r)) as [[| q quiz] |] eqn:Hquiz; [exact Hc | | exact Hc].
  change (coherent (state (fst (body r)))).
  apply (Hbody r). split; [exact Hc | rewrite Hquiz; eauto].
Qed.

Lemma with_post_quiz_block (body : app unit) :
  steps stays_coherent_with_post_quiz body ->
  steps stays_coherent
    (get_state ≫= fun s => when (negb (is_empty (default [] (post_quiz s)))) body).
Proof.
  intros Hbody. apply steps_inspect. intros r Hc.
  destruct (post_quiz (state r)) as [[| q quiz] |] eqn:Hquiz; [exact Hc | | exact Hc].
  change (coherent (state (fst (body r)))).
  apply (Hbody r). split; [exact Hc | rewrite Hquiz; eauto].
Qed.

Lemma tab1_coherent u cd : steps stays_coherent (tab1 u cd).
Proof. unfold tab1. step_through; intros H; exact H. Qed.

Lemma tab3_coherent u cd : steps stays_coherent (tab3 u cd).
Proof. unfold tab3. step_through; intros H; exact H. Qed.

Lemma tab2_coherent u cd : steps stays_coherent (tab2 u cd).
Proof.
  unfold tab2.
  apply steps_bind; [exact _ | apply steps_show; exact _ | intros _].
  apply steps_bind; [exact _ | apply tab2_generate_coherent | intros _].
  apply with_quiz_block.
  unfold tab2_results, pre_display_question, pre_show_result.
  step_through_with
    ltac:(idtac; lazymatch goal with
          | |- steps _ (tab2_submit _) => apply tab2_submit_coherent
          end).
  - apply insert_answer_coherent.
  - intros H; exact H.
  - intros H; exact H.
Qed.

Lemma tab4_coherent u : steps stays_coherent (tab4 u).
Proof.
  unfold tab4.
  apply steps_bind; [exact _ | apply steps_show; exact _ | intros _].
  apply steps_bind; [exact _ | apply tab4_generate_coherent | intros _].
  apply with_post_quiz_block.
  unfold tab4_results, post_display_question, post_show_result.
  step_through_with
    ltac:(idtac; lazymatch goal with
          | |- steps _ (tab4_submit _) => apply tab4_submit_coherent
          end);
    apply insert_post_answer_coherent.
Qed.

Lemma new_session_coherent : coherent new_session.
Proof. repeat split; try discriminate; intros [? ?]; discriminate. Qed.

Lemma rerun_keeps_coherent (u : ui) (s : session) :
  coherent s -> coherent (rerun u s).
Proof.
  assert (Hmain : steps stays_coherent (main u)).
  { unfold main.
    step_through_with
      ltac:(idtac; lazymatch goal with
            | |- steps _ (tab1 _ _) => apply tab1_coherent
            | |- steps _ (tab2 _ _) => apply tab2_coherent
            | |- steps _ (tab3 _ _) => apply tab3_coherent
            | |- steps _ (tab4 _) => apply tab4_coherent
            end);
      intros H; exact H. }
  exact (Hmain {| state := s; shown := [] |}).
Qed.

Lemma initialised_keys (s : session) :
  is_Some (course_topics (initialised s)) /\ is_Some (quizzes (initialised s)).
Proof.
  unfold initialised. destruct s as [topics history ? ? ? ? ? ? ? ? ?].
  destruct topics, history; cbn; split; by eexists.
Qed.

(** After a run of [main], also one that an exception ended, the session
    holds the keys [course_topics] and [quizzes]. *)
Lemma rerun_initialises_keys (u : ui) (s : session) :
  is_Some (course_topics (rerun u s)) /\ is_Some (quizzes (rerun u s)).
Proof.
  unfold rerun. rewrite main_start. cbn [state shown].
  assert (Hrest : steps keys_stay
                    (tab1 u (VDict []) ≫= fun course_data =>
                       tab2 u course_data;; tab3 u course_data;; tab4 u)).
  { unfold tab1, tab2, tab2_generate, tab2_submit, tab2_results, pre_display_question,
      pre_show_result, tab3, tab4, tab4_generate, tab4_submit, tab4_results,
      post_display_question, post_show_result.
    step_through; (split; cbn; intros H; first [exact H | by eexists]). }
  destruct (Hrest {| state := initialised s; shown := [] ++ banner |}) as [Htopics Hhistory].
  cbn [state] in *. split; [apply Htopics | apply Hhistory]; apply initialised_keys.
Qed.

End Coherence.

(** X12: every session that runs of the script can produce from the empty
    one, whatever the services answer and whatever the user does in each
    run, is coherent: a stored quiz (pre- or post-learning) holds only
    entries that passed the generator's filter and has its answer record
    and its submitted flag beside it, a flag is never there without its
    quiz, and a flag that is set has its score beside it. *)
Theorem reachable_sessions_coherent (s : session) : reachable s -> coherent s.
Proof.
  induction 1 as [| E u s _ IH].
  - apply new_session_coherent.
  - by apply rerun_keeps_coherent.
Qed.

Lemma reachable_sessions_coherent_witness : coherent submitted.
Proof.
  apply reachable_sessions_coherent.
  unfold submitted, generated. do 2 apply reachable_rerun. apply reachable_new.
Defined.

(** ** The quiz button and the normaliser *)

Section Generate.
Context `{E : Env}.

(** X14: the warning of line 207 cannot be reached once [str(course_data)]
    has a character that is no white space (as the [str] of a dict always
    has): a press of "Generate Quiz" then always calls [fetch_questions],
    also when the user typed no topics or only blanks. *)
Theorem generate_quiz_always_asks (u : ui) (course_data : pyval) (r : run) :
  has_ink (py_str course_data) = true ->
  generate_quiz u = true ->
  tab2_generate u course_data r
  = (fetch_questions (py_str course_data ++ additional_topics u) (level_str (quiz_level u))
       ≫= fun questions =>
         if negb (is_empty questions) then
           show (StSuccess "Quiz generated successfully!");;
           update (set_current_quiz questions);;
           update (set_selected_answers ∅);;
           update (set_quiz_submitted false)
         else show (StError "Failed to generate questions. Try again.")) r.
Proof.
  intros Hink Hclick. unfold tab2_generate. rewrite Hclick. cbn [when].
  destruct (String.eqb_spec (Text.strip (py_str course_data ++ additional_topics u)) "")
    as [Hblank | _]; [| reflexivity].
  exfalso. revert Hblank. apply StripFacts.strip_ink, StripFacts.has_ink_app_l, Hink.
Qed.

(** X15: [clean_text] does not see letter case: a text and its lower-case
    form are cleaned to the same string, and so are any two texts that
    differ in case only. *)
Theorem clean_text_ignores_case (a b : string) :
  clean_text (Text.lower a) = clean_text a /\
  (Text.lower a = Text.lower b -> clean_text a = clean_text b).
Proof.
  split.
  - unfold clean_text. by rewrite TextFacts.lower_idem.
  - intros Hab. unfold clean_text. by rewrite Hab.
Qed.

End Generate.

Lemma generate_quiz_always_asks_witness :
  exists r, @tab2_generate (replying (VList [pre_mcq])) asking (VDict []) blank = (r, Ok tt) /\
            current_quiz (state r) = Some [pre_mcq].
Proof.
  eexists. rewrite (@generate_quiz_always_asks (replying (VList [pre_mcq])));
    [| reflexivity | reflexivity].
  split; reflexivity.
Defined.

Lemma clean_text_ignores_case_witness :
  @clean_text (replying VNone) "The ART of war" = @clean_text (replying VNone) "the Art OF War".
Proof.
  apply (proj2 (@clean_text_ignores_case (replying VNone) "The ART of war" "the Art OF War")).
  reflexivity.
Defined.

Section Scraped.
Context `{E : Env}.
Hypothesis tokenize_lowercase :
  forall s, Text.lower s = s -> Forall (fun w => Text.lower w = w) (word_tokenize s).
Hypothesis tokenize_stable :
  forall s ws, ws `sublist_of` word_tokenize s ->
               Forall (fun w => Text.isalpha w = true) ws ->
               word_tokenize (Text.join " " ws) = ws.

Lemma clean_text_output_fixed (text : string) :
  clean_text (clean_text text) = clean_text text.
Proof using tokenize_lowercase tokenize_stable.
  rewrite (clean_text_unfold text).
  set (ws := filter kept (word_tokenize (Text.lower text))).
  rewrite clean_text_unfold,
    (TextFacts.lower_join ws (kept_tokens_lowercase tokenize_lowercase text)).
  rewrite (tokenize_stable (Text.lower text) ws (sublist_filter _ _)).
  - by rewrite (filter_keeps_all kept ws (Forall_filter_self kept _)).
  - eapply Forall_impl; [apply (Forall_filter_self kept) |]. by intros w [_ ?].
Qed.

(** X16: what the scraper returns is normalised.  With a tokenizer that
    keeps lower-case text lower-case and splits a joined list of its own
    alphabetic tokens back into them, whenever [scrape_course] returns
    data, they are a dict with exactly the keys "What You'll Learn" and
    "Skills You'll Gain", each a list of strings, and cleaning any of these
    strings again gives it back. *)
Theorem scraped_content_is_normalised (url : string) (data : pyval) :
  scrape_course url = Ok (Some data, None) ->
  exists learn skills,
    data = VDict [("What You'll Learn", VList (map VStr learn));
                  ("Skills You'll Gain", VList (map VStr skills))] /\
    Forall (fun t => clean_text t = t) (learn ++ skills).
Proof using tokenize_lowercase tokenize_stable.
  unfold scrape_course.
  destruct (requests_get url _) as [page |]; [| discriminate]. cbn [mbind res_bind].
  destruct (negb (status_code page =? 200)); [discriminate |].
  cbv zeta. unfold mret, res_ret. intros Heq. injection Heq as <-.
  match goal with
  | |- context [VList (map (fun item => VStr (clean_text item)) ?l1)] =>
      match goal with
      | |- context [("Skills You'll Gain", VList (map _ ?l2))] =>
          exists (map clean_text l1), (map clean_text l2)
      end
  end.
  split.
  - rewrite !map_map. reflexivity.
  - apply Forall_app. split; apply Forall_forall; intros t Ht;
      apply list_elem_of_fmap in Ht as (t0 & -> & _); apply clean_text_output_fixed.
Qed.

End Scraped.

Lemma scraped_content_is_normalised_witness :
  exists learn skills,
    VDict [("What You'll Learn", VList [VStr "learn basics proofs"; VStr "art induction"]);
           ("Skills You'll Gain", VList [VStr "logic"])]
    = VDict [("What You'll Learn", VList (map VStr learn));
             ("Skills You'll Gain", VList (map VStr skills))] /\
    Forall (fun t => @clean_text course_site t = t) (learn ++ skills).
Proof.
  apply (@scraped_content_is_normalised course_site
           ScriptedFacts.split_words_lowercase
           (fun s ws _ => ScriptedFacts.split_words_join ws)
           "https://example.org/course").
  vm_compute. reflexivity.
Defined.

(** ** Showing the quiz and scoring it (lines 211-235) *)

Lemma set_same_answers (s : session) (a : gmap nat pyval) :
  selected_answers s = Some a -> set_selected_answers a s = s.
Proof. destruct s. cbn. by intros ->. Qed.

Lemma recorded_before (vs : list pyval) (idx j : nat) (a : gmap nat pyval) :
  (j < idx)%nat -> recorded idx vs a !! j = a !! j.
Proof.
  revert idx a. induction vs as [| v vs IH]; intros idx a Hj; [reflexivity |].
  cbn [recorded]. rewrite IH by lia. apply lookup_insert_ne. lia.
Qed.

Lemma matching_recorded (vs cs : list pyval) (idx : nat) (a : gmap nat pyval) :
  length vs = length cs ->
  matching (recorded idx vs a) idx cs = agreements vs cs.
Proof.
  revert cs idx a. induction vs as [| v vs IH]; intros [| c cs] idx a Hlen;
    try discriminate; [reflexivity |].
  cbn [matching agreements recorded]. injection Hlen as Hlen.
  unfold answer_get at 1. rewrite recorded_before by lia.
  rewrite lookup_insert_eq. cbn [default]. f_equal. by apply IH.
Qed.

Lemma displayed_length (u : ui) (idx : nat) (quiz vs : list pyval) :
  displayed u idx quiz vs -> length vs = length quiz.
Proof. induction 1; cbn; congruence. Qed.

Section Display.
Context `{E : Env}.

Lemma display_loop (u : ui) (idx : nat) (quiz vs : list pyval) :
  displayed u idx quiz vs ->
  forall (s : session) (out : list message) (a : gmap nat pyval),
    selected_answers s = Some a ->
    exists out',
      for_enumerate idx quiz (pre_display_question u) {| state := s; shown := out |}
      = ({| state := set_selected_answers (recorded idx vs a) s; shown := out' |}, Ok tt).
Proof.
  induction 1 as [idx | idx question mcq options selected values quiz vs
                        Hmcq Hoptions Hvalues Hradio _ IH];
    intros s out a Ha.
  - exists out. cbn. by rewrite (set_same_answers s a Ha).
  - cbn [for_enumerate]. unfold mbind at 1. unfold app_bind.
    unfold pre_display_question at 1. unfold_app.
    rewrite Hmcq, Hoptions, Hvalues, Hradio. cbn [state shown]. rewrite Ha.
    destruct (IH (set_selected_answers (<[idx := selected]> a) s)
                (out ++ [StWrite ("Q" ++ py_str (question_label idx) ++ ": " ++ py_str mcq)])%list
                (<[idx := selected]> a) eq_refl) as [out' Hrun].
    exists out'. cbn [recorded]. exact Hrun.
Qed.

(** X17: display and submission together.  When the loop of lines 211-221
    shows every question of the stored quiz and the radios give the
    selections [vs], a press of "Submit Answers" on a quiz not yet
    submitted sets the flag, leaves the answer record with [vs] written at
    the indices 0, 1, ... over what it held, and stores as score the number
    of questions whose selection equals [options[correct]]: what was in the
    record before the run has no part in the score. *)
Theorem displayed_quiz_scores_agreements (u : ui) (r : run) (quiz vs cs : list pyval)
    (a : gmap nat pyval) :
  current_quiz (state r) = Some quiz ->
  selected_answers (state r) = Some a ->
  quiz_submitted (state r) = Some false ->
  submit_answers u = true ->
  displayed u 0 quiz vs ->
  corrects correct_option quiz = Ok cs ->
  let r' := fst ((for_enumerate 0 quiz (pre_display_question u);; tab2_submit u) r) in
  quiz_submitted (state r') = Some true /\
  last_quiz_score (state r') = Some (agreements vs cs) /\
  selected_answers (state r') = Some (recorded 0 vs a).
Proof.
  intros Hquiz Ha Hflag Hclick Hshown Hcs. destruct r as [s out]. cbn [state] in *.
  destruct (display_loop u 0 quiz vs Hshown s out a Ha) as [out' Hrun].
  assert (Hseq : (for_enumerate 0 quiz (pre_display_question u);; tab2_submit u)
                   {| state := s; shown := out |}
                 = tab2_submit u
                     {| state := set_selected_answers (recorded 0 vs a) s; shown := out' |}).
  { unfold mbind at 1. unfold app_bind. by rewrite Hrun. }
  cbv zeta. rewrite Hseq. clear Hseq.
  assert (Hscore : pre_score quiz (recorded 0 vs a) = Ok (agreements vs cs)).
  { rewrite pre_score_counts, Hcs. cbn [mbind res_bind mret res_ret].
    rewrite matching_recorded; [reflexivity |].
    rewrite (displayed_length u 0 quiz vs Hshown). symmetry.
    by apply (corrects_length correct_option). }
  destruct (submit_scores u
              {| state := set_selected_answers (recorded 0 vs a) s; shown := out' |}
              quiz (recorded 0 vs a) (agreements vs cs) Hclick Hflag Hquiz eq_refl Hscore)
    as [Hsub Hlast].
  split; [exact Hsub |]. split; [exact Hlast |].
  unfold tab2_submit. unfold_app. cbn. rewrite Hflag, Hclick. cbn.
  rewrite Hquiz. cbn. rewrite Hscore. reflexivity.
Qed.

End Display.

Lemma displayed_quiz_scores_agreements_witness :
  last_quiz_score
    (state (fst ((for_enumerate 0 [pre_mcq]
                    (@pre_display_question (replying VNone) (widgets SubmitAnswers (Some 0%nat)));;
                  @tab2_submit (replying VNone) (widgets SubmitAnswers (Some 0%nat)))
                   (start fresh_quiz))))
  = Some 1.
Proof.
  refine (proj1 (proj2 (@displayed_quiz_scores_agreements (replying VNone)
                          (widgets SubmitAnswers (Some 0%nat)) (start fresh_quiz)
                          [pre_mcq] [VStr "Paris"] [VStr "Paris"] ∅
                          eq_refl eq_refl eq_refl eq_refl _ eq_refl))).
  eapply displayed_cons; [reflexivity .. | apply displayed_nil].
Defined.
